(** * The blog sitemap generator ([scripts/generate-blog-sitemap.js])

    A shallow embedding of the script and the properties its specification
    states about it.  The script is one asynchronous pipeline: page through
    the WordPress posts endpoint, fall back to the RSS feed, fetch the
    categories, render the sitemap and write it to [dist/sitemap-blog.xml].

    JavaScript values are embedded untyped, as the script meets them: what
    [response.json()] returns is an arbitrary JSON value, property reads go
    through [GetField], optional chaining, truthiness and the string and
    number coercions are written out.  Effects (HTTP requests, the console,
    the file system, exceptions) are threaded through a state-and-exception
    monad; [await] is sequencing; the pagination loop takes fuel.

    What the script takes from its host is a parameter of the embedding
    ([Env]): the conversions [Number], [String] and [Date] of the runtime,
    the environment variables, the HTTP transport, and one clock reading
    for the run.  The file system accepts every write, as the capability of
    the specification does. *)

From Stdlib Require Import ZArith QArith Qround String Ascii List Bool Lia Lqa.
From stdpp Require Import base option list gmap strings pretty.

Import ListNotations.
Local Open Scope string_scope.
Local Open Scope list_scope.

(** ** Strings

    A JavaScript string is modelled by a Rocq [string], the UTF-8 bytes of
    the text.  Every delimiter the script looks for (['/'], ['<'], ['T'],
    the tags of the feed) is ASCII, so splitting and matching on bytes cuts
    the text where the script cuts it. *)

Definition nl : string := String (ascii_of_nat 10) EmptyString.
Definition dquote : string := String (ascii_of_nat 34) EmptyString.

Definition is_empty (s : string) : bool :=
  match s with EmptyString => true | String _ _ => false end.

(** [s.split(sep)] for a non-empty separator: [skip] counts the characters of
    a separator occurrence still to be dropped, [cur] is the piece being
    read, in reverse. *)
Fixpoint str_split_aux (sep : string) (skip : nat) (cur : list ascii) (s : string)
  : list string :=
  match s with
  | EmptyString => [string_of_list_ascii (rev cur)]
  | String c s' =>
      match skip with
      | S k => str_split_aux sep k cur s'
      | O =>
          if String.prefix sep s
          then string_of_list_ascii (rev cur)
                 :: str_split_aux sep (String.length sep - 1) [] s'
          else str_split_aux sep 0 (c :: cur) s'
      end
  end.

Definition str_split (sep s : string) : list string := str_split_aux sep 0 [] s.

(** ASCII case folding, which is all the [i] flag of a regular expression
    without the [u] flag does to the ASCII letters of a tag name. *)
Definition lower (c : ascii) : ascii :=
  let n := nat_of_ascii c in
  if (65 <=? n)%nat && (n <=? 90)%nat then ascii_of_nat (n + 32) else c.

Fixpoint prefix_ci (p s : string) : bool :=
  match p, s with
  | EmptyString, _ => true
  | String a p', String b s' => Ascii.eqb (lower a) (lower b) && prefix_ci p' s'
  | String _ _, EmptyString => false
  end.

Fixpoint drop (n : nat) (s : string) : string :=
  match n, s with
  | O, _ => s
  | S k, String _ s' => drop k s'
  | S _, EmptyString => EmptyString
  end.

(** The longest prefix without ['<'], and what follows it: the greedy
    [[^<]+] of the two feed patterns. *)
Fixpoint span_text (s : string) : string * string :=
  match s with
  | EmptyString => (EmptyString, EmptyString)
  | String c s' =>
      if Ascii.eqb c "<"%char then (EmptyString, s)
      else let (t, r) := span_text s' in (String c t, r)
  end.

(** [s.match(/<tag>([^<]+)<\/tag>/i)?.[1]]: the first capture of the
    leftmost match.  After [<tag>] the class [[^<]+] can only stop in front
    of a ['<'], so at each start position the longest run is the only
    candidate, and a failed position moves the search one character on. *)
Fixpoint match_element (tag : string) (s : string) : option string :=
  let open := "<" +:+ tag +:+ ">" in
  let close := "</" +:+ tag +:+ ">" in
  let here :=
    if prefix_ci open s then
      let (t, r) := span_text (drop (String.length open) s) in
      if negb (is_empty t) && prefix_ci close r then Some t else None
    else None in
  match here with
  | Some t => Some t
  | None => match s with
            | EmptyString => None
            | String _ s' => match_element tag s'
            end
  end.

(** [s.replace(/\/$/, '')]: one trailing slash is removed. *)
Fixpoint strip_trailing_slash (s : string) : string :=
  match s with
  | EmptyString => EmptyString
  | String c EmptyString => if Ascii.eqb c "/"%char then EmptyString else s
  | String c s' => String c (strip_trailing_slash s')
  end.

(** ** Numbers

    A JavaScript number is NaN, an infinity or a finite value; finite
    doubles are rationals, and the comparisons the script makes between
    them are exact. *)

Inductive JSNum : Type :=
| NaN
| PosInf
| NegInf
| Fin (q : Q).

Definition num_of_Z (z : Z) : JSNum := Fin (inject_Z z).
Definition num_of_nat (n : nat) : JSNum := num_of_Z (Z.of_nat n).

Definition isNaN (n : JSNum) : bool :=
  match n with NaN => true | _ => false end.

Definition isFinite (n : JSNum) : bool :=
  match n with Fin _ => true | _ => false end.

(** [a < b] *)
Definition js_lt (a b : JSNum) : bool :=
  match a, b with
  | NaN, _ | _, NaN => false
  | _, NegInf => false
  | NegInf, _ => true
  | PosInf, _ => false
  | Fin _, PosInf => true
  | Fin x, Fin y => negb (Qle_bool y x)
  end.

(** [a > b] and [a <= b] *)
Definition js_gt (a b : JSNum) : bool := js_lt b a.

Definition js_le (a b : JSNum) : bool :=
  match a, b with
  | NaN, _ | _, NaN => false
  | _, _ => negb (js_lt b a)
  end.

(** [Math.min(a, b)] *)
Definition Math_min (a b : JSNum) : JSNum :=
  match a, b with
  | NaN, _ | _, NaN => NaN
  | _, _ => if js_lt b a then b else a
  end.

(** [page += 1] on a double holding an integer: exact below 2^53, where the
    sum rounds back to 2^53. *)
Definition two53 : Z := 9007199254740992.

Definition js_succ (page : Z) : Z :=
  if (two53 <=? page)%Z then page else (page + 1)%Z.

(** ToIntegerOrInfinity of the [end] argument of [slice], and
    [list.slice(0, end)]. *)
Definition Qtrunc (q : Q) : Z :=
  if Qle_bool 0 q then Qfloor q else Qceiling q.

Definition slice0 {A : Type} (l : list A) (end_ : JSNum) : list A :=
  match end_ with
  | NaN => []
  | NegInf => []
  | PosInf => l
  | Fin q =>
      let k := Qtrunc q in
      let len := Z.of_nat (List.length l) in
      let final := if (k <? 0)%Z then Z.max (len + k) 0 else Z.min k len in
      firstn (Z.to_nat final) l
  end.

(** ** Values

    What [response.json()] hands to the script, and what the script builds:
    an untyped JavaScript value.  The property list of an object has one
    pair per property name. *)

#[warnings="-register-all"]
Inductive JSValue : Type :=
| VUndefined
| VNull
| VBool (b : bool)
| VNum (n : JSNum)
| VStr (s : string)
| VArr (items : list JSValue)
| VObj (props : list (string * JSValue)).

Record JSError : Type := mkError { err_name : string; message : string }.

Definition Error (msg : string) : JSError := mkError "Error" msg.
Definition TypeError (msg : string) : JSError := mkError "TypeError" msg.
Definition RangeError (msg : string) : JSError := mkError "RangeError" msg.
Definition SyntaxError (msg : string) : JSError := mkError "SyntaxError" msg.

(** A computation without effects that may throw. *)
Inductive Res (A : Type) : Type :=
| Ok (a : A)
| Err (e : JSError).
Arguments Ok {A} a.
Arguments Err {A} e.

Definition res_bind {A B : Type} (r : Res A) (k : A -> Res B) : Res B :=
  match r with
  | Ok a => k a
  | Err e => Err e
  end.

Notation "'let?' x ':=' c 'in' k" := (res_bind c (fun x => k))
  (at level 10, x name, c at level 100, k at level 200).

(** [xs.map(f)] and [xs.forEach(x => acc.push(f x))] with a callback that may
    throw: the elements are visited in order and the first exception ends
    the visit. *)
Fixpoint res_map {A B : Type} (f : A -> Res B) (xs : list A) : Res (list B) :=
  match xs with
  | [] => Ok []
  | x :: xs' =>
      let? y := f x in
      let? ys := res_map f xs' in
      Ok (y :: ys)
  end.

Definition is_nullish (v : JSValue) : bool :=
  match v with VUndefined | VNull => true | _ => false end.

Definition lookup_prop (k : string) (props : list (string * JSValue)) : JSValue :=
  match find (fun kv => String.eqb (fst kv) k) props with
  | Some kv => snd kv
  | None => VUndefined
  end.

Definition cannot_read (v k : string) : JSError :=
  TypeError ("Cannot read properties of " +:+ v +:+ " (reading '" +:+ k +:+ "')").

(** [v.k] for the property names the script reads ([length], [count],
    [slug], [modified], [_embedded], ['wp:term']): none of them is inherited
    from a prototype, so a value without the property gives [undefined]. *)
Definition GetField (v : JSValue) (k : string) : Res JSValue :=
  match v with
  | VUndefined => Err (cannot_read "undefined" k)
  | VNull => Err (cannot_read "null" k)
  | VObj props => Ok (lookup_prop k props)
  | VArr items =>
      Ok (if String.eqb k "length" then VNum (num_of_nat (List.length items))
          else VUndefined)
  | VStr s =>
      Ok (if String.eqb k "length" then VNum (num_of_nat (String.length s))
          else VUndefined)
  | VBool _ | VNum _ => Ok VUndefined
  end.

(** [v[0]] *)
Definition GetFirst (v : JSValue) : Res JSValue :=
  match v with
  | VUndefined => Err (cannot_read "undefined" "0")
  | VNull => Err (cannot_read "null" "0")
  | VObj props => Ok (lookup_prop "0" props)
  | VArr items => Ok (match items with x :: _ => x | [] => VUndefined end)
  | VStr s => Ok (match s with
                  | String c _ => VStr (String c EmptyString)
                  | EmptyString => VUndefined
                  end)
  | VBool _ | VNum _ => Ok VUndefined
  end.

(** [v?.k] and [v?.[0]] *)
Definition OptField (v : JSValue) (k : string) : Res JSValue :=
  if is_nullish v then Ok VUndefined else GetField v k.

Definition OptFirst (v : JSValue) : Res JSValue :=
  if is_nullish v then Ok VUndefined else GetFirst v.

(** ToBoolean *)
Definition truthy (v : JSValue) : bool :=
  match v with
  | VUndefined | VNull => false
  | VBool b => b
  | VNum NaN => false
  | VNum (Fin q) => negb (Qeq_bool q 0)
  | VNum _ => true
  | VStr s => negb (is_empty s)
  | VArr _ | VObj _ => true
  end.

(** [a || b] *)
Definition js_or (a b : JSValue) : JSValue := if truthy a then a else b.

(** ** The host

    The parts of the language runtime and of the process the script relies
    on and does not define: the number and date conversions, the
    environment variables, the clock, and the HTTP transport.  A run sees
    one clock reading [now], the text of [new Date().toISOString()]. *)

Record Response : Type := mkResponse {
  status : Z;
  statusText : string;
  headers : list (string * string);
  body_text : string;            (* [await response.text()] *)
  body_json : option JSValue     (* [await response.json()], [None]: not JSON *)
}.

Inductive FetchResult : Type :=
| Rejected (e : JSError)
| Responded (r : Response).

(** The i-th request of the run, to a URL with request headers, is answered
    by [transport i url headers]. *)
Definition Transport : Type := nat -> string -> list (string * string) -> FetchResult.

Record Env : Type := mkEnv {
  StringToNumber : string -> JSNum;            (* [Number(s)] on a string *)
  Number_toString : JSNum -> string;           (* [String(n)] *)
  Date_toISOString : JSValue -> option string; (* [new Date(v).toISOString()],
                                                  [None]: invalid time value *)
  base64 : string -> string;                   (* [Buffer.from(s).toString('base64')] *)
  process_env : string -> option string;
  now : string;
  project_root : string;                       (* [path.resolve(__dirname, '..')] *)
  global_fetch : option Transport;             (* [globalThis.fetch] *)
  node_fetch : option Transport                (* the default export of [node-fetch] *)
}.

(** [response.ok] and [response.headers.get(name)]; header names compare
    without case. *)
Definition ok (r : Response) : bool :=
  (200 <=? status r)%Z && (status r <=? 299)%Z.

Definition lower_string (s : string) : string :=
  string_of_list_ascii (map lower (list_ascii_of_string s)).

Definition headers_get (r : Response) (name : string) : option string :=
  match find (fun kv => String.eqb (lower_string (fst kv)) (lower_string name))
             (headers r) with
  | Some kv => Some (snd kv)
  | None => None
  end.

Inductive Stream : Type := Log | Warn | Fail.

Record State : Type := mkState {
  cachedFetch : option Transport;
  requests : nat;                         (* HTTP requests issued so far *)
  console : list (Stream * string);       (* oldest line first *)
  fs_dirs : gset string;
  fs_files : gmap string string
}.

(** ** Effects *)

Inductive Outcome (A : Type) : Type :=
| Ret (a : A) (s : State)
| Throw (e : JSError) (s : State)
| OutOfFuel.
Arguments Ret {A} a s.
Arguments Throw {A} e s.
Arguments OutOfFuel {A}.

Definition M (A : Type) : Type := State -> Outcome A.


Definition ret {A : Type} (a : A) : M A := fun s => Ret a s.

Definition throw {A : Type} (e : JSError) : M A := fun s => Throw e s.

Definition bind {A B : Type} (m : M A) (k : A -> M B) : M B :=
  fun s =>
    match m s with
    | Ret a s' => k a s'
    | Throw e s' => Throw e s'
    | OutOfFuel => OutOfFuel
    end.

Definition lift {A : Type} (r : Res A) : M A :=
  match r with
  | Ok a => ret a
  | Err e => throw e
  end.

(** [try { body } catch (error) { handler }] *)
Definition try_catch {A : Type} (body : M A) (handler : JSError -> M A) : M A :=
  fun s =>
    match body s with
    | Ret a s' => Ret a s'
    | Throw e s' => handler e s'
    | OutOfFuel => OutOfFuel
    end.

Notation "'let*' x ':=' c 'in' k" := (bind c (fun x => k))
  (at level 10, x name, c at level 100, k at level 200).
Notation "c ';;' k" := (bind c (fun _ => k))
  (at level 100, k at level 200, right associativity).

(** The state after a line on the console, a new directory, a file written. *)
Definition logged (st : Stream) (line : string) (s : State) : State :=
  mkState (cachedFetch s) (requests s) (console s ++ [(st, line)])
          (fs_dirs s) (fs_files s).

Definition with_dir (p : string) (s : State) : State :=
  mkState (cachedFetch s) (requests s) (console s) ({[p]} ∪ fs_dirs s) (fs_files s).

Definition with_file (p text : string) (s : State) : State :=
  mkState (cachedFetch s) (requests s) (console s) (fs_dirs s)
          (<[p := text]> (fs_files s)).

Definition console_write (st : Stream) (line : string) : M unit :=
  fun s => Ret tt (logged st line s).

(** [fs.existsSync], [fs.mkdirSync(p, { recursive: true })],
    [fs.writeFileSync(p, text, 'utf-8')] and [fs.statSync(p).size].  The file
    system is the capability of the specification: it takes every write. *)
Definition existsSync (p : string) : M bool :=
  fun s => Ret (bool_decide (p ∈ fs_dirs s) || bool_decide (is_Some (fs_files s !! p))) s.

Definition mkdirSync (p : string) : M unit :=
  fun s => Ret tt (with_dir p s).

Definition writeFileSync (p text : string) : M unit :=
  fun s => Ret tt (with_file p text s).

Definition statSync_size (p : string) : M nat :=
  fun s =>
    match fs_files s !! p with
    | Some text => Ret (String.length text) s
    | None => Throw (Error ("ENOENT: no such file or directory, stat '" +:+ p +:+ "'")) s
    end.

(** ** The script *)

Section Script.

Variable E : Env.

(** *** Coercions *)

(** [String(v)], the conversion of a template literal. *)
Fixpoint ToString (v : JSValue) : string :=
  match v with
  | VUndefined => "undefined"
  | VNull => "null"
  | VBool true => "true"
  | VBool false => "false"
  | VNum n => Number_toString E n
  | VStr s => s
  | VArr items =>
      String.concat ","
        (map (fun x => if is_nullish x then EmptyString else ToString x) items)
  | VObj _ => "[object Object]"
  end.

(** [Number(v)], the conversion of [v > 0]. *)
Definition ToNumber (v : JSValue) : JSNum :=
  match v with
  | VUndefined => NaN
  | VNull => num_of_Z 0
  | VBool true => num_of_Z 1
  | VBool false => num_of_Z 0
  | VNum n => n
  | VStr s => StringToNumber E s
  | VArr _ | VObj _ => StringToNumber E (ToString v)
  end.

(** [Number(response.headers.get(name))]: a missing header is [null]. *)
Definition Number_of_header (h : option string) : JSNum :=
  match h with
  | None => num_of_Z 0
  | Some s => StringToNumber E s
  end.

(** *** Core configuration *)

(** [process.env.NAME] when it is set and not empty, which is what [||]
    tests. *)
Definition env_truthy (name : string) : option string :=
  match process_env E name with
  | Some s => if is_empty s then None else Some s
  | None => None
  end.

Definition BASE_URL : string :=
  default "https://boxentertainment.ae" (env_truthy "SITEMAP_BASE_URL").

Definition WP_API_BASE : string :=
  strip_trailing_slash
    (match env_truthy "WP_API_BASE" with
     | Some s => s
     | None => default "https://boxentertainment.ae/wp-json"
                       (env_truthy "VITE_WP_API_BASE")
     end).

Definition requestedBlogLimit : JSNum :=
  match env_truthy "VITE_PRERENDER_BLOG_LIMIT" with
  | Some s => StringToNumber E s
  | None => num_of_Z 100
  end.

Definition BLOG_LIMIT : JSNum :=
  if isFinite requestedBlogLimit && js_gt requestedBlogLimit (num_of_Z 0)
  then requestedBlogLimit
  else num_of_Z 100.

Definition PAGE_SIZE : JSNum := num_of_Z 100.

Definition WP_USER_AGENT : string :=
  default "Mozilla/5.0 (compatible; BoxEntertainmentSitemap/1.0; +https://boxentertainment.ae)"
          (env_truthy "WP_USER_AGENT").

Definition toAbsolute (p : string) : string := project_root E +:+ "/" +:+ p.

(** *** Requests *)

Definition set_cachedFetch (f : Transport) (s : State) : State :=
  mkState (Some f) (requests s) (console s) (fs_dirs s) (fs_files s).

(** The transport [getFetch] settles on, if there is one. *)
Definition transport_of (s : State) : option Transport :=
  match cachedFetch s with
  | Some f => Some f
  | None => match global_fetch E with
            | Some f => Some f
            | None => node_fetch E
            end
  end.

Definition getFetch : M Transport :=
  fun s =>
    match cachedFetch s with
    | Some f => Ret f s
    | None =>
        match global_fetch E with
        | Some f => Ret f (set_cachedFetch f s)
        | None =>
            match node_fetch E with
            | Some f => Ret f (set_cachedFetch f s)
            | None => Throw (Error "Cannot find package 'node-fetch'") s
            end
        end
    end.

(** [await fetch(url, { headers })] *)
Definition requested (s : State) : State :=
  mkState (cachedFetch s) (S (requests s)) (console s) (fs_dirs s) (fs_files s).

Definition call_fetch (f : Transport) (url : string) (hs : list (string * string))
  : M Response :=
  fun s =>
    match f (requests s) url hs with
    | Responded r => Ret r (requested s)
    | Rejected e => Throw e (requested s)
    end.

(** The serializer of [URLSearchParams]: letters, digits and [*-._] stay, a
    space becomes [+], every other byte is percent-encoded. *)
Definition hex_digit (n : nat) : ascii :=
  if (n <? 10)%nat then ascii_of_nat (48 + n) else ascii_of_nat (55 + n).

Definition urlencode_byte (c : ascii) : string :=
  let n := nat_of_ascii c in
  if ((48 <=? n) && (n <=? 57) || (65 <=? n) && (n <=? 90)
      || (97 <=? n) && (n <=? 122)
      || (n =? 42) || (n =? 45) || (n =? 46) || (n =? 95))%nat
  then String c EmptyString
  else if (n =? 32)%nat then "+"
  else String "%"%char
         (String (hex_digit (n / 16)) (String (hex_digit (n mod 16)) EmptyString)).

Definition urlencode (s : string) : string :=
  String.concat EmptyString (map urlencode_byte (list_ascii_of_string s)).

Definition search_params (params : list (string * string)) : string :=
  String.concat "&"
    (map (fun kv => urlencode (fst kv) +:+ "=" +:+ urlencode (snd kv)) params).

Definition buildUrl (pathname : string) (params : list (string * string)) : string :=
  let pathWithSlash :=
    if String.prefix "/" pathname then pathname else "/" +:+ pathname in
  let query := search_params params in
  WP_API_BASE +:+ pathWithSlash
    +:+ (if is_empty query then EmptyString else "?" +:+ query).

Definition buildHeaders : list (string * string) :=
  let headers :=
    [("Accept", "application/json");
     ("User-Agent", WP_USER_AGENT);
     ("Accept-Language", "en-US,en;q=0.9")] in
  match env_truthy "WP_API_TOKEN" with
  | Some token => headers ++ [("Authorization", "Bearer " +:+ token)]
  | None =>
      match env_truthy "WP_API_USER", env_truthy "WP_API_PASSWORD" with
      | Some user, Some password =>
          let creds := base64 E (user +:+ ":" +:+ password) in
          headers ++ [("Authorization", "Basic " +:+ creds)]
      | _, _ => headers
      end
  end.

Definition status_text (r : Response) : string :=
  Number_toString E (num_of_Z (status r)).

Definition response_json (r : Response) : M JSValue :=
  match body_json r with
  | Some data => ret data
  | None => throw (SyntaxError "Unexpected token in JSON")
  end.

Definition fetchJson (pathname : string) (params : list (string * string))
  : M (JSValue * Response) :=
  let* fetch := getFetch in
  let apiUrl := buildUrl pathname params in
  let* response := call_fetch fetch apiUrl buildHeaders in
  if negb (ok response) then
    let body := body_text response in
    throw (Error ("WordPress API " +:+ status_text response +:+ ": "
                  +:+ statusText response +:+ " - " +:+ apiUrl +:+ " - "
                  +:+ substring 0 200 body))
  else
    let* data := response_json response in
    ret (data, response).

(** *** The primary source *)

(** [...data] in [posts.push(...data)]: an array gives its elements, a
    string its characters, anything else is not iterable. *)
Definition spread (data : JSValue) : Res (list JSValue) :=
  match data with
  | VArr items => Ok items
  | VStr s => Ok (map (fun c => VStr (String c EmptyString)) (list_ascii_of_string s))
  | _ => Err (TypeError "Spread syntax requires ...iterable[Symbol.iterator] to be a function")
  end.

Definition posts_params (page : Z) : list (string * string) :=
  [("_embed", "true");
   ("per_page", Number_toString E (Math_min PAGE_SIZE BLOG_LIMIT));
   ("page", Number_toString E (num_of_Z page));
   ("orderby", "date");
   ("order", "desc")].

Definition posts_url (page : Z) : string :=
  buildUrl "/wp/v2/posts" (posts_params page).

(** Lines 82 to 85: the total is replaced only by a header that reads as a
    positive number. *)
Definition headerPages (response : Response) : JSNum :=
  Number_of_header (headers_get response "X-WP-TotalPages").

Definition next_totalPages (totalPages : JSNum) (response : Response) : JSNum :=
  if negb (isNaN (headerPages response))
     && js_gt (headerPages response) (num_of_Z 0)
  then headerPages response
  else totalPages.

(** The [while] loop of [fetchAllPosts]; one unit of fuel per iteration. *)
Fixpoint fetchAllPosts_loop (fuel : nat) (posts : list JSValue) (page : Z)
  (totalPages : JSNum) : M (list JSValue) :=
  if js_le (num_of_Z page) totalPages
     && js_lt (num_of_nat (List.length posts)) BLOG_LIMIT
  then
    match fuel with
    | O => fun _ => OutOfFuel
    | S fuel' =>
        let* r := fetchJson "/wp/v2/posts" (posts_params page) in
        let* items := lift (spread (fst r)) in
        fetchAllPosts_loop fuel' (posts ++ items) (js_succ page)
                           (next_totalPages totalPages (snd r))
    end
  else ret posts.

Definition fetchAllPosts (fuel : nat) : M (list JSValue) :=
  let* posts := fetchAllPosts_loop fuel [] 1%Z (num_of_Z 1) in
  ret (slice0 posts BLOG_LIMIT).


(** *** The fallback source *)

(** [link.split('/').filter(Boolean)] *)
Definition link_segments (link : string) : list string :=
  List.filter (fun seg => negb (is_empty seg)) (str_split "/" link).

(** [new Date(v).toISOString()] *)
Definition toISOString (v : JSValue) : Res string :=
  match Date_toISOString E v with
  | Some iso => Ok iso
  | None => Err (RangeError "Invalid time value")
  end.

(** The object literal of lines 112 to 117. *)
Definition rss_object (slug : string) (link : JSValue) (date categorySlug : string)
  : JSValue :=
  VObj [("slug", VStr slug);
        ("link", link);
        ("date", VStr date);
        ("_embedded",
         VObj [("wp:term",
                VArr [VArr [VObj [("slug", VStr categorySlug);
                                  ("taxonomy", VStr "category")]]])])].

(** The callback of [items.map] (lines 105 to 118). *)
Definition rss_post (item : string) : Res JSValue :=
  let linkMatch := match_element "link" item in
  let dateMatch := match_element "pubDate" item in
  let slug :=
    match linkMatch with
    | Some link => default EmptyString (last (link_segments link))
    | None => EmptyString
    end in
  let categorySlugMatch := option_map link_segments linkMatch in
  let categorySlug :=
    match categorySlugMatch with
    | Some segs =>
        if (2 <=? List.length segs)%nat
        then default "blog" (nth_error segs (List.length segs - 2))
        else "blog"
    | None => "blog"
    end in
  let? date :=
    match dateMatch with
    | Some d => toISOString (VStr d)
    | None => Ok (now E)
    end in
  Ok (rss_object slug
                 (match linkMatch with Some link => VStr link | None => VUndefined end)
                 date categorySlug).

(** [xml.split('<item>').slice(1).map(chunk => `<item>${chunk}`)] *)
Definition rss_items (xml : string) : list string :=
  map (fun chunk => "<item>" +:+ chunk) (tail (str_split "<item>" xml)).

(** [p => p.slug && p.link] *)
Definition has_slug_and_link (p : JSValue) : Res bool :=
  let? slug := GetField p "slug" in
  if truthy slug then
    let? link := GetField p "link" in
    Ok (truthy link)
  else Ok false.

Fixpoint res_filter {A : Type} (f : A -> Res bool) (xs : list A) : Res (list A) :=
  match xs with
  | [] => Ok []
  | x :: xs' =>
      let? keep := f x in
      let? ys := res_filter f xs' in
      Ok (if keep then x :: ys else ys)
  end.

Definition rss_headers : list (string * string) :=
  [("User-Agent", WP_USER_AGENT);
   ("Accept", "application/rss+xml,application/xml;q=0.9,*/*;q=0.8")].

Definition rssUrl : string := strip_trailing_slash BASE_URL +:+ "/feed/".

(** The [try] block of [fetchPostsFromRss]. *)
Definition fetchPostsFromRss_try : M (list JSValue) :=
  let* fetch := getFetch in
  let* response := call_fetch fetch rssUrl rss_headers in
  if negb (ok response) then
    throw (Error ("RSS returned " +:+ status_text response +:+ ": "
                  +:+ statusText response))
  else
    let xml := body_text response in
    let items := rss_items xml in
    let* posts := lift (res_map rss_post items) in
    let* sanitized := lift (res_filter has_slug_and_link posts) in
    if (List.length sanitized =? 0)%nat then
      throw (Error "RSS contained no posts")
    else ret (slice0 sanitized BLOG_LIMIT).

Definition rss_warning (error : JSError) : string :=
  "⚠️  RSS fallback failed: " +:+ message error.

Definition fetchPostsFromRss : M (list JSValue) :=
  try_catch fetchPostsFromRss_try
    (fun error => console_write Warn (rss_warning error) ;; ret []).

(** *** Categories *)

Definition categories_warning (error : JSError) : string :=
  "⚠️  Failed to fetch categories, continuing with posts only: " +:+ message error.

Definition fetchCategories : M JSValue :=
  try_catch
    (let* r := fetchJson "/wp/v2/categories" [("per_page", Number_toString E (num_of_Z 100))] in
     ret (fst r))
    (fun error => console_write Warn (categories_warning error) ;; ret (VArr [])).

(** *** The sitemap *)

(** [new Date().toISOString().split('T')[0]] and the same on a given date. *)
Definition date_part (iso : string) : string :=
  hd EmptyString (str_split "T" iso).

Definition today : string := date_part (now E).

Definition url_block (loc lastmod changefreq priority : string) : string :=
  "  <url>" +:+ nl +:+
  "    <loc>" +:+ loc +:+ "</loc>" +:+ nl +:+
  "    <lastmod>" +:+ lastmod +:+ "</lastmod>" +:+ nl +:+
  "    <changefreq>" +:+ changefreq +:+ "</changefreq>" +:+ nl +:+
  "    <priority>" +:+ priority +:+ "</priority>" +:+ nl +:+
  "  </url>".

(** The callback of [categories.forEach] (lines 179 to 188): what it pushes. *)
Definition category_urls (category : JSValue) : Res (list string) :=
  let? count := GetField category "count" in
  if js_gt (ToNumber count) (num_of_Z 0) then
    let? slug := GetField category "slug" in
    Ok [url_block (BASE_URL +:+ "/blog/" +:+ ToString slug) today "weekly" "0.7"]
  else Ok [].

(** The callback of [posts.forEach] (lines 192 to 205): what it pushes. *)
Definition embedded_category (post : JSValue) : Res JSValue :=
  let? embedded := GetField post "_embedded" in
  let? terms := OptField embedded "wp:term" in
  let? first := OptFirst terms in
  OptFirst first.

Definition post_url (post : JSValue) : Res string :=
  let? category := embedded_category post in
  let? slug_of_category := OptField category "slug" in
  let categorySlug := js_or slug_of_category (VStr "blog") in
  let? modified := GetField post "modified" in
  let? lastmod :=
    if truthy modified
    then (let? iso := toISOString modified in Ok (date_part iso))
    else Ok today in
  let? slug := GetField post "slug" in
  Ok (url_block (BASE_URL +:+ "/" +:+ ToString categorySlug +:+ "/" +:+ ToString slug)
                lastmod "monthly" "0.6").

(** [categories.forEach(f)] on whatever the categories request returned. *)
Definition forEach_category (categories : JSValue) : Res (list string) :=
  match categories with
  | VArr items => let? pushed := res_map category_urls items in Ok (concat pushed)
  | _ => Err (TypeError "categories.forEach is not a function")
  end.

(** Lines 178 to 189: what the category loop pushes. *)
Definition category_part (categories : JSValue) : Res (list string) :=
  let? len := GetField categories "length" in
  if js_gt (ToNumber len) (num_of_Z 0) then forEach_category categories else Ok [].

(** Lines 175 to 205: the array [urls] after both loops. *)
Definition sitemap_urls (categories : JSValue) (posts : list JSValue)
  : Res (list string) :=
  let? pushed_for_categories := category_part categories in
  let? pushed_for_posts := res_map post_url posts in
  Ok (pushed_for_categories ++ pushed_for_posts).

(** The slug of the category a post carries, as the renderer reads it. *)
Definition category_slug_of (post : JSValue) : Res JSValue :=
  let? category := embedded_category post in
  OptField category "slug".

Definition xml_declaration : string :=
  "<?xml version=" +:+ dquote +:+ "1.0" +:+ dquote
  +:+ " encoding=" +:+ dquote +:+ "UTF-8" +:+ dquote +:+ "?>".

Definition urlset_open : string :=
  "<urlset xmlns=" +:+ dquote +:+ "http://www.sitemaps.org/schemas/sitemap/0.9"
  +:+ dquote +:+ ">".

Definition sitemap_of (urls : list string) : string :=
  xml_declaration +:+ nl +:+ urlset_open +:+ nl
  +:+ String.concat nl urls +:+ nl +:+ "</urlset>".

Definition emptySitemap : string :=
  xml_declaration +:+ nl +:+ urlset_open +:+ nl +:+ "</urlset>".

Definition outputPath : string := toAbsolute "dist/sitemap-blog.xml".

(** Lines 213 to 216 and 235 to 238. *)
Definition ensure_dist : M unit :=
  let distPath := toAbsolute "dist" in
  let* found := existsSync distPath in
  if negb found then mkdirSync distPath else ret tt.

Definition no_posts_message (apiError : option JSError) : string :=
  match apiError with
  | Some e => "No posts returned. API error: " +:+ message e
              +:+ ". RSS fallback was also empty."
  | None => "No posts returned from WordPress (API and RSS fallback empty)"
  end.

Definition fetching_notice : string :=
  "📝 Fetching blog posts from WordPress API...".

Definition api_warning (error : JSError) : string :=
  "⚠️  WP API fetch failed, will try RSS fallback: " +:+ message error.

Definition fallback_notice : string :=
  "⚠️  No posts from API, trying RSS feed fallback...".

Definition generated_notice (categories : JSValue) (posts : list JSValue)
  (size : nat) (viaFallback : bool) : Res string :=
  let sourceLabel := if viaFallback then "RSS fallback" else "WP API" in
  let? len := GetField categories "length" in
  Ok ("✓ Generated sitemap-blog.xml (" +:+ ToString len +:+ " categories, "
      +:+ Number_toString E (num_of_nat (List.length posts)) +:+ " posts, "
      +:+ Number_toString E (num_of_nat size) +:+ " bytes) via " +:+ sourceLabel).

Definition failure_notice (error : JSError) : string :=
  "❌ Failed to generate blog sitemap: " +:+ message error.

Definition continuing_notice : string :=
  "⚠️  Continuing build without blog sitemap".

Definition created_empty_notice : string :=
  "✓ Created empty blog sitemap as fallback".

(** Lines 149 to 154: the posts of the primary source and [apiError]. *)
Definition fetch_primary (fuel : nat) : M (list JSValue * option JSError) :=
  try_catch
    (let* posts := fetchAllPosts fuel in ret (posts, None))
    (fun error =>
       console_write Warn (api_warning error) ;;
       ret ([], Some error)).

(** Lines 156 to 163: the posts after the fallback and [viaFallback]. *)
Definition fetch_fallback (posts : list JSValue) : M (list JSValue * bool) :=
  if (List.length posts =? 0)%nat then
    console_write Warn fallback_notice ;;
    let* posts := fetchPostsFromRss in
    ret (posts, negb (List.length posts =? 0)%nat)
  else ret (posts, false).

(** The [try] block of [writeBlogSitemap]. *)
Definition writeBlogSitemap_try (fuel : nat) : M bool :=
  console_write Log fetching_notice ;;
  let* primary := fetch_primary fuel in
  let apiError := snd primary in
  let* fetched := fetch_fallback (fst primary) in
  let posts := fst fetched in
  let viaFallback := snd fetched in
  let* categories := fetchCategories in
  if (List.length posts =? 0)%nat then throw (Error (no_posts_message apiError))
  else
    let* urls := lift (sitemap_urls categories posts) in
    let sitemap := sitemap_of urls in
    ensure_dist ;;
    writeFileSync outputPath sitemap ;;
    let* size := statSync_size outputPath in
    let* notice := lift (generated_notice categories posts size viaFallback) in
    console_write Log notice ;;
    ret true.

(** The [catch] block of [writeBlogSitemap]. *)
Definition writeBlogSitemap_catch (error : JSError) : M bool :=
  console_write Fail (failure_notice error) ;;
  console_write Fail continuing_notice ;;
  ensure_dist ;;
  writeFileSync outputPath emptySitemap ;;
  console_write Log created_empty_notice ;;
  ret false.

Definition writeBlogSitemap (fuel : nat) : M bool :=
  try_catch (writeBlogSitemap_try fuel) writeBlogSitemap_catch.

End Script.

(** ** The data model of the specification

    Posts, categories and sitemap entries as the specification types them,
    how a JSON value of the primary source stands for a post or a category,
    and the entries the specification asks the renderer for. *)

Module Spec.









Section Entries.

Variable E : Env.








(** A response whose header, when it reads as a number, announces at most
    [T] pages. *)
Definition total_at_most (T : Z) (r : Response) : Prop :=
  match headerPages E r with
  | Fin q => (q <= inject_Z T)%Q
  | PosInf => False
  | NaN | NegInf => True
  end.

End Entries.

(** A page request that succeeds: a success status and a JSON array. *)
Definition successful_page (r : Response) : Prop :=
  ok r = true /\ exists items, body_json r = Some (VArr items).

(** A fallback post from which both a slug and a link were recovered. *)
Definition slug_and_link_recovered (p : JSValue) : bool :=
  match GetField p "slug", GetField p "link" with
  | Ok slug, Ok link => truthy slug && truthy link
  | _, _ => false
  end.

(** The element before the last one. *)
Fixpoint penultimate {A : Type} (l : list A) : option A :=
  match l with
  | [] => None
  | x :: rest =>
      match rest with
      | [] => None
      | [_] => Some x
      | _ :: _ :: _ => penultimate rest
      end
  end.

(** A text without the character [d]; a piece of a link: a text that is not
    empty and has no slash. *)
Fixpoint free_of (d : ascii) (s : string) : bool :=
  match s with
  | EmptyString => true
  | String c s' => negb (Ascii.eqb c d) && free_of d s'
  end.

Definition piece (s : string) : Prop :=
  free_of "/"%char s = true /\ s <> EmptyString.

(** The segments of the path of an absolute URL: the text after the first
    ["://"] (the whole text when there is none) is cut at the slashes, the
    first piece is the authority, the other pieces that are not empty are
    the path segments. *)
Fixpoint after_scheme (link : string) : option string :=
  match link with
  | EmptyString => None
  | String _ rest =>
      if String.prefix "://" link then Some (drop 3 link) else after_scheme rest
  end.

Definition url_path_segments (link : string) : list string :=
  match str_split "/" (default link (after_scheme link)) with
  | _authority :: path => List.filter (fun seg => negb (is_empty seg)) path
  | [] => []
  end.

(** Well-formed XML, as far as a sitemap needs it: an optional declaration,
    then one root element whose tags nest and match; only white space
    outside the root. *)
Inductive Token : Type :=
| TDecl
| TOpen (name : string)
| TClose (name : string)
| TEmpty (name : string)
| TText (text : string)
| TBad.

Definition tag_name (s : string) : string :=
  hd EmptyString (str_split " " s).

Definition ends_with (c : ascii) (s : string) : bool :=
  match rev (list_ascii_of_string s) with
  | x :: _ => Ascii.eqb x c
  | [] => false
  end.

Definition classify_tag (inner : string) : Token :=
  match inner with
  | EmptyString => TBad
  | String c rest =>
      if Ascii.eqb c "?"%char then (if ends_with "?"%char rest then TDecl else TBad)
      else if Ascii.eqb c "/"%char then (if is_empty rest then TBad else TClose rest)
      else if ends_with "/"%char inner
           then TEmpty (tag_name (substring 0 (String.length inner - 1) inner))
           else TOpen (tag_name inner)
  end.

(** [in_tag]: the characters read since an unclosed ['<'], in reverse;
    [text]: the characters of the text being read, in reverse. *)
Fixpoint tokens (in_tag : option (list ascii)) (text : list ascii) (s : string)
  : list Token :=
  let flush := match text with
               | [] => []
               | _ => [TText (string_of_list_ascii (rev text))]
               end in
  match s with
  | EmptyString => match in_tag with Some _ => [TBad] | None => flush end
  | String c s' =>
      match in_tag with
      | Some acc =>
          if Ascii.eqb c ">"%char
          then classify_tag (string_of_list_ascii (rev acc)) :: tokens None [] s'
          else if Ascii.eqb c "<"%char then [TBad]
          else tokens (Some (c :: acc)) [] s'
      | None =>
          if Ascii.eqb c "<"%char then flush ++ tokens (Some []) [] s'
          else tokens None (c :: text) s'
      end
  end.

Definition is_space (c : ascii) : bool :=
  let n := nat_of_ascii c in
  ((n =? 32) || (n =? 9) || (n =? 10) || (n =? 13))%nat.

Definition blank (s : string) : bool :=
  forallb is_space (list_ascii_of_string s).

Fixpoint nested (ts : list Token) (stack : list string) (root_seen : bool) : bool :=
  match ts with
  | [] => root_seen && match stack with [] => true | _ :: _ => false end
  | t :: ts' =>
      match t, stack with
      | TBad, _ => false
      | TDecl, [] => negb root_seen && nested ts' [] false
      | TDecl, _ :: _ => false
      | TText s, [] => blank s && nested ts' [] root_seen
      | TText _, _ :: _ => nested ts' stack root_seen
      | TOpen n, [] => negb root_seen && nested ts' [n] true
      | TOpen n, _ :: _ => nested ts' (n :: stack) root_seen
      | TEmpty _, [] => negb root_seen && nested ts' [] true
      | TEmpty _, _ :: _ => nested ts' stack root_seen
      | TClose n, top :: rest => String.eqb n top && nested ts' rest root_seen
      | TClose _, [] => false
      end
  end.

Definition well_formed_xml (doc : string) : bool :=
  nested (tokens None [] doc) [] false.

(** The number of places of [s] where [pat] starts. *)
Fixpoint occurrences (pat s : string) : nat :=
  (if String.prefix pat s then 1 else 0)
  + match s with
    | EmptyString => 0
    | String _ s' => occurrences pat s'
    end.

End Spec.

(** ** Sample hosts

    Concrete runtimes and transports on which the script is run in the
    examples.  The conversions agree with JavaScript on the texts the
    examples feed them: unsigned decimal integers and [Infinity] for
    [Number], integers for [String], and two listed dates. *)

Module Sample.

Definition digit_value (c : ascii) : option Z :=
  let d := nat_of_ascii c in
  if ((48 <=? d) && (d <=? 57))%nat then Some (Z.of_nat (d - 48)) else None.

Definition digits_value (s : string) : option Z :=
  fold_left
    (fun acc c =>
       match acc, digit_value c with
       | Some n, Some d => Some (10 * n + d)%Z
       | _, _ => None
       end)
    (list_ascii_of_string s) (Some 0%Z).

Definition to_number (s : string) : JSNum :=
  if String.eqb s "Infinity" then PosInf
  else match digits_value s with
       | Some n => num_of_Z n
       | None => NaN
       end.

Definition number_text (n : JSNum) : string :=
  match n with
  | NaN => "NaN"
  | PosInf => "Infinity"
  | NegInf => "-Infinity"
  | Fin q => pretty (Qfloor q)
  end.

Definition date_iso (v : JSValue) : option string :=
  match v with
  | VStr s =>
      if String.eqb s "2024-01-15T00:00:00" then Some "2024-01-15T00:00:00.000Z"
      else if String.eqb s "Mon, 15 Jan 2024 10:00:00 +0000"
           then Some "2024-01-15T10:00:00.000Z"
           else None
  | _ => None
  end.

Definition environment (name : string) : option string :=
  if String.eqb name "SITEMAP_BASE_URL" then Some "https://example.com" else None.

Definition host (transport : Transport) : Env :=
  {| StringToNumber := to_number;
     Number_toString := number_text;
     Date_toISOString := date_iso;
     base64 := fun s => s;
     process_env := environment;
     now := "2026-11-02T09:30:00.000Z";
     project_root := "/app";
     global_fetch := Some transport;
     node_fetch := None |}.

Definition fresh : State :=
  {| cachedFetch := None; requests := 0; console := [];
     fs_dirs := ∅; fs_files := ∅ |}.

Definition json_page (hs : list (string * string)) (data : JSValue) : FetchResult :=
  Responded (mkResponse 200 "OK" hs EmptyString (Some data)).

Definition forbidden : FetchResult :=
  Responded (mkResponse 403 "Forbidden" [] "denied" None).

Definition hello_world : JSValue :=
  VObj [("slug", VStr "hello-world");
        ("modified", VStr "2024-01-15T00:00:00");
        ("_embedded", VObj [("wp:term", VArr [VArr [VObj [("slug", VStr "news")]]])])].

Definition news : JSValue :=
  VObj [("slug", VStr "news"); ("count", VNum (num_of_Z 3))].

Definition unused : JSValue :=
  VObj [("slug", VStr "unused"); ("count", VNum (num_of_Z 0))].

(** One page with one post, then two categories. *)
Definition one_post : Transport :=
  fun i _ _ =>
    match i with
    | O => json_page [("X-WP-TotalPages", "1")] (VArr [hello_world])
    | _ => json_page [] (VArr [news; unused])
    end.

(** Every request is refused. *)
Definition all_forbidden : Transport := fun _ _ _ => forbidden.

(** The first page announces four pages; no later response carries the
    header; every page is empty. *)
Definition four_pages : Transport :=
  fun i _ _ =>
    match i with
    | O => json_page [("X-WP-TotalPages", "4")] (VArr [])
    | _ => json_page [] (VArr [])
    end.


(** Every page is empty and announces an unbounded total. *)
Definition endless : Transport :=
  fun _ _ _ => json_page [("X-WP-TotalPages", "Infinity")] (VArr []).

Definition feed : string :=
  "<rss><channel><title>Blog</title>"
  +:+ "<item><title>Hello</title><link>https://example.com/news/hello-world/</link>"
  +:+ "<pubDate>Mon, 15 Jan 2024 10:00:00 +0000</pubDate></item>"
  +:+ "<item><title>Root</title><link>/</link></item>"
  +:+ "<item><title>Solo</title><link>https://example.com/solo/</link></item>"
  +:+ "</channel></rss>".

(** The posts endpoint is refused, the feed answers, the categories
    endpoint fails. *)
Definition feed_only : Transport :=
  fun i _ _ =>
    match i with
    | O => forbidden
    | 1 => Responded (mkResponse 200 "OK" [] feed None)
    | _ => Responded (mkResponse 500 "Internal Server Error" [] "down" None)
    end.

(** The feed answers on the first request. *)
Definition feed_first : Transport :=
  fun _ _ _ => Responded (mkResponse 200 "OK" [] feed None).




End Sample.

(** ** Sentences of the specification that the script does not satisfy

    Each is stated here as the specification words it, to be refuted below
    on a sample host. *)

Module Stated.


(** "For every sequence of successful page responses the pagination loop
    terminates after finitely many requests." *)
Definition pagination_always_terminates : Prop :=
  forall E s f,
    transport_of E s = Some f ->
    (forall i url hs, exists r, f i url hs = Responded r /\ Spec.successful_page r) ->
    exists fuel, fetchAllPosts E fuel s <> OutOfFuel.



End Stated.

(** ** More sample hosts

    Hosts with chosen environment variables and transports, for the
    properties of the configuration, of the requests and of whole runs. *)

Module Cases.

Definition variables (vars : list (string * string)) (name : string)
  : option string :=
  match find (fun kv => String.eqb (fst kv) name) vars with
  | Some kv => Some (snd kv)
  | None => None
  end.

Definition host (vars : list (string * string)) (global node : option Transport)
  : Env :=
  {| StringToNumber := Sample.to_number;
     Number_toString := Sample.number_text;
     Date_toISOString := Sample.date_iso;
     base64 := fun s => s;
     process_env := variables vars;
     now := "2026-11-02T09:30:00.000Z";
     project_root := "/app";
     global_fetch := global;
     node_fetch := node |}.


Definition post_named (slug : string) : JSValue :=
  VObj [("slug", VStr slug)].

(** Page 1 carries two posts and announces two pages, page 2 carries one
    post; the categories endpoint fails. *)
Definition two_pages : Transport :=
  fun i _ _ =>
    match i with
    | O => Sample.json_page [("X-WP-TotalPages", "2")]
                            (VArr [post_named "a"; post_named "b"])
    | 1 => Sample.json_page [("X-WP-TotalPages", "2")] (VArr [post_named "c"])
    | _ => Responded (mkResponse 500 "Internal Server Error" [] "down" None)
    end.

(** Every page carries one post and announces an unbounded total. *)
Definition one_per_page : Transport :=
  fun _ _ _ =>
    Sample.json_page [("X-WP-TotalPages", "Infinity")] (VArr [post_named "p"]).




(** A feed with a good fragment and a fragment whose date cannot be read. *)
Definition bad_date_feed : string :=
  "<rss><channel>"
  +:+ "<item><link>https://example.com/news/hello-world/</link></item>"
  +:+ "<item><link>https://example.com/news/other/</link>"
  +:+ "<pubDate>yesterday</pubDate></item>"
  +:+ "</channel></rss>".

Definition feed_with (xml : string) : Transport :=
  fun _ _ _ => Responded (mkResponse 200 "OK" [] xml None).

End Cases.

(** ** Shapes of requests and runs

    Vocabulary for the properties of the requests, of the pagination and of
    whole runs. *)

Module Shape.

(** The values of the [Authorization] headers of a request. *)
Definition authorization (hs : list (string * string)) : list string :=
  map snd (List.filter (fun kv => String.eqb (fst kv) "Authorization") hs).


Definition all_chars (p : ascii -> bool) (s : string) : bool :=
  forallb p (list_ascii_of_string s).

(** The value of [page] after [i] iterations of the pagination loop. *)
Definition page_number (i : nat) : Z := Nat.iter i js_succ 1%Z.

(** The [i]-th request of a pagination that started in state [s], and the
    two ways it can go: a success response whose JSON body spreads into
    [items], or a failure with the exception [e] that [fetchJson] or the
    spread raises. *)
Definition page_request (E : Env) (f : Transport) (s : State) (i : nat)
  : FetchResult :=
  f (requests s + i)%nat (posts_url E (page_number i)) (buildHeaders E).

Definition page_carries (E : Env) (f : Transport) (s : State) (i : nat)
  (items : list JSValue) : Prop :=
  exists r data,
    page_request E f s i = Responded r
    /\ ok r = true /\ body_json r = Some data /\ spread data = Ok items.

Definition page_fails (E : Env) (f : Transport) (s : State) (i : nat)
  (e : JSError) : Prop :=
  match page_request E f s i with
  | Rejected e' => e = e'
  | Responded r =>
      if ok r then
        match body_json r with
        | Some data => spread data = Err e
        | None => e = SyntaxError "Unexpected token in JSON"
        end
      else exists excerpt,
             e = Error ("WordPress API " +:+ status_text E r +:+ ": "
                        +:+ statusText r +:+ " - " +:+ posts_url E (page_number i)
                        +:+ " - " +:+ excerpt)
  end.








End Shape.

(** * Properties *)

(** ** Numbers, lists and the transport *)

Section Facts.

Variable E : Env.

(** [BLOG_LIMIT] is a positive finite number, and [slice(0, BLOG_LIMIT)]
    leaves at most that many elements. *)
Lemma js_gt_zero q : js_gt (Fin q) (num_of_Z 0) = true -> (0 < q)%Q.
Proof.
  unfold js_gt, js_lt, num_of_Z. intros H.
  apply negb_true_iff in H.
  destruct (Qlt_le_dec 0 q) as [Hlt | Hle]; [exact Hlt |].
  apply Qle_bool_iff in Hle. unfold inject_Z in H. rewrite Hle in H. discriminate.
Qed.

Lemma BLOG_LIMIT_positive : exists q, BLOG_LIMIT E = Fin q /\ (0 < q)%Q.
Proof.
  unfold BLOG_LIMIT.
  destruct (requestedBlogLimit E) as [| | | q] eqn:Hr; cbn [isFinite andb];
    try (exists (inject_Z 100); split; [reflexivity | reflexivity]).
  destruct (js_gt (Fin q) (num_of_Z 0)) eqn:Hgt.
  - exists q. split; [reflexivity | now apply js_gt_zero].
  - exists (inject_Z 100). split; reflexivity.
Qed.



(** [getFetch] hands out the transport of the state and keeps it. *)
Lemma getFetch_cases s :
  match transport_of E s with
  | Some f => exists s1, getFetch E s = Ret f s1
                         /\ (s1 = s \/ s1 = set_cachedFetch f s)
  | None => getFetch E s = Throw (Error "Cannot find package 'node-fetch'") s
  end.
Proof.
  unfold transport_of, getFetch.
  destruct (cachedFetch s) as [f |]; [exists s; auto |].
  destruct (global_fetch E) as [f |]; [eexists; eauto |].
  destruct (node_fetch E) as [f |]; [eexists; eauto | reflexivity].
Qed.


(** What [res_map] and [slice0] return comes from their argument. *)
Lemma res_map_In (A B : Type) (f : A -> Res B) xs ys :
  res_map f xs = Ok ys -> forall y, In y ys -> exists x, In x xs /\ f x = Ok y.
Proof.
  revert ys. induction xs as [| a xs IH]; simpl; intros ys H y Hy.
  - inversion H; subst. destruct Hy.
  - destruct (f a) as [b |] eqn:Hfa; simpl in H; [| discriminate].
    destruct (res_map f xs) as [zs |]; simpl in H; [| discriminate].
    inversion H; subst. destruct Hy as [-> | Hy].
    + exists a. auto.
    + destruct (IH zs eq_refl y Hy) as (x & Hx & Hfx). exists x. auto.
Qed.


Lemma lift_cases (A : Type) (r : Res A) s :
  lift r s = match r with Ok a => Ret a s | Err e => Throw e s end.
Proof. now destruct r. Qed.

(** The [try] block of [fetchPostsFromRss] always ends; when it returns,
    the feed answered with a success status and the result is the truncated
    list of the posts that passed the filter. *)
Lemma rss_try_ends s : fetchPostsFromRss_try E s <> OutOfFuel.
Proof.
  unfold fetchPostsFromRss_try, bind.
  destruct (getFetch E s) as [f s1 | e s1 |] eqn:Hg; try discriminate.
  - unfold call_fetch. destruct (f (requests s1) _ _) as [e | r]; try discriminate.
    destruct (ok r); simpl; try discriminate.
    rewrite lift_cases. destruct (res_map _ _); try discriminate.
    rewrite lift_cases. destruct (res_filter _ _) as [sanitized |]; try discriminate.
    destruct (List.length sanitized =? 0)%nat; discriminate.
  - unfold getFetch in Hg.
    destruct (cachedFetch s), (global_fetch E), (node_fetch E); discriminate.
Qed.


Lemma fetchPostsFromRss_cases s :
  match fetchPostsFromRss_try E s with
  | Ret p s1 => fetchPostsFromRss E s = Ret p s1
  | Throw e s1 => fetchPostsFromRss E s = Ret [] (logged Warn (rss_warning e) s1)
  | OutOfFuel => False
  end.
Proof.
  pose proof (rss_try_ends s) as Hnt.
  unfold fetchPostsFromRss, try_catch.
  destruct (fetchPostsFromRss_try E s); [reflexivity | reflexivity | congruence].
Qed.




Lemma getFetch_ends s : getFetch E s <> OutOfFuel.
Proof.
  unfold getFetch.
  destruct (cachedFetch s), (global_fetch E), (node_fetch E); discriminate.
Qed.

Lemma fetchJson_ends pathname params s :
  fetchJson E pathname params s <> OutOfFuel.
Proof.
  unfold fetchJson, bind. pose proof (getFetch_ends s) as Hg.
  destruct (getFetch E s) as [f s1 | e s1 |]; try discriminate; [| congruence].
  unfold call_fetch. destruct (f (requests s1) _ _) as [e | r]; try discriminate.
  destruct (ok r); simpl; try discriminate.
  unfold response_json. destruct (body_json r); discriminate.
Qed.



(** The [catch] block of [writeBlogSitemap] always returns [false] and
    leaves the empty envelope at the output path. *)
Lemma ensure_dist_cases s :
  exists s1, ensure_dist E s = Ret tt s1
             /\ fs_files s1 = fs_files s /\ console s1 = console s.
Proof.
  unfold ensure_dist, bind, existsSync.
  destruct (negb _); eexists; split; try reflexivity; auto.
Qed.

Lemma catch_block_writes error s :
  exists s', writeBlogSitemap_catch E error s = Ret false s'
             /\ fs_files s' !! outputPath E = Some emptySitemap.
Proof.
  unfold writeBlogSitemap_catch, bind, console_write, writeFileSync, ret.
  destruct (ensure_dist_cases (logged Fail continuing_notice
                                 (logged Fail (failure_notice error) s)))
    as (s1 & Hs1 & _).
  rewrite Hs1. eexists. split; [reflexivity |].
  simpl. apply lookup_insert_eq.
Qed.



Lemma truthy_nonempty s : s <> EmptyString -> truthy (VStr s) = true.
Proof. destruct s; [congruence | reflexivity]. Qed.

Lemma res_bind_ok (A B : Type) (r : Res A) (k : A -> Res B) b :
  res_bind r k = Ok b -> exists a, r = Ok a /\ k a = Ok b.
Proof. destruct r as [a | e]; simpl; [eauto | discriminate]. Qed.



(** Nothing escapes the top-level entry point. *)
Lemma writeBlogSitemap_never_throws fuel s e s' :
  writeBlogSitemap E fuel s <> Throw e s'.
Proof.
  unfold writeBlogSitemap, try_catch.
  destruct (writeBlogSitemap_try E fuel s) as [b s1 | e1 s1 |]; try discriminate.
  destruct (catch_block_writes e1 s1) as (s2 & -> & _). discriminate.
Qed.

End Facts.





(** ** Pagination *)

(** Steps through [getFetch] and the [call_fetch] that follows it in the
    goal, from [Ht : transport_of E s = Some f]: [s1] is the state after
    [getFetch], [Hs1] says what it is, [Hreq] that no request was counted. *)
Ltac through_transport E s Ht s1 Hs1 Hreq :=
  pose proof (getFetch_cases E s) as Hs1;
  rewrite Ht in Hs1;
  destruct Hs1 as (s1 & -> & Hs1);
  assert (Hreq : requests s1 = requests s)
    by (destruct Hs1 as [-> | ->]; reflexivity);
  unfold call_fetch; rewrite Hreq.

Section Paging.

Variable E : Env.

(** [fetchJson] issues exactly one request through the transport of the
    state, and returns only a success response with a JSON body. *)
Lemma fetchJson_cases pathname params s f :
  transport_of E s = Some f ->
  match fetchJson E pathname params s with
  | Ret (data, r) s1 =>
      f (requests s) (buildUrl E pathname params) (buildHeaders E) = Responded r
      /\ ok r = true /\ body_json r = Some data
      /\ requests s1 = S (requests s) /\ transport_of E s1 = Some f
  | Throw e s1 => requests s1 = S (requests s) /\ transport_of E s1 = Some f
  | OutOfFuel => False
  end.
Proof.
  intros Ht. unfold fetchJson, bind.
  through_transport E s Ht s1 Hs1 Hreq.
  assert (Ht1 : transport_of E (requested s1) = Some f).
  { destruct Hs1 as [-> | ->]; [exact Ht | reflexivity]. }
  destruct (f (requests s) _ _) as [e | r] eqn:Hf.
  - split; [simpl; lia | exact Ht1].
  - destruct (ok r) eqn:Hok; cbn [negb].
    + unfold response_json. destruct (body_json r) as [data |] eqn:Hj.
      * unfold ret. repeat split; auto. simpl. lia.
      * unfold throw. split; [simpl; lia | exact Ht1].
    + unfold throw. split; [simpl; lia | exact Ht1].
Qed.

Lemma fetchJson_ok pathname params s f r data :
  transport_of E s = Some f ->
  f (requests s) (buildUrl E pathname params) (buildHeaders E) = Responded r ->
  ok r = true -> body_json r = Some data ->
  exists s1, fetchJson E pathname params s = Ret (data, r) s1
             /\ requests s1 = S (requests s) /\ transport_of E s1 = Some f.
Proof.
  intros Ht Hf Hok Hj. unfold fetchJson, bind.
  through_transport E s Ht s1 Hs1 Hreq.
  assert (Ht1 : transport_of E (requested s1) = Some f).
  { destruct Hs1 as [-> | ->]; [exact Ht | reflexivity]. }
  rewrite Hf, Hok. cbn [negb].
  unfold response_json. rewrite Hj. unfold ret.
  eexists. split; [reflexivity |]. split; [simpl; lia | exact Ht1].
Qed.

Lemma loop_unfold fuel posts page totalPages :
  fetchAllPosts_loop E fuel posts page totalPages =
  if js_le (num_of_Z page) totalPages
     && js_lt (num_of_nat (List.length posts)) (BLOG_LIMIT E)
  then
    match fuel with
    | O => fun _ => OutOfFuel
    | S fuel' =>
        bind (fetchJson E "/wp/v2/posts" (posts_params E page)) (fun r =>
        bind (lift (spread (fst r))) (fun items =>
        fetchAllPosts_loop E fuel' (posts ++ items) (js_succ page)
                           (next_totalPages E totalPages (snd r))))
    end
  else ret posts.
Proof. destruct fuel; reflexivity. Qed.

Lemma js_le_Z page q :
  js_le (num_of_Z page) (Fin q) = true -> (inject_Z page <= q)%Q.
Proof.
  unfold js_le, js_lt, num_of_Z. rewrite negb_involutive. apply Qle_bool_iff.
Qed.

Lemma next_totalPages_bounded B T totalPages r :
  (T <= B)%Z ->
  (exists q, totalPages = Fin q /\ (q <= inject_Z B)%Q) ->
  Spec.total_at_most E T r ->
  exists q, next_totalPages E totalPages r = Fin q /\ (q <= inject_Z B)%Q.
Proof.
  intros HTB Htp Hr. unfold next_totalPages, Spec.total_at_most in *.
  destruct (headerPages E r) as [| | | h]; cbn [isNaN negb andb js_gt js_lt num_of_Z];
    try exact Htp; try contradiction.
  destruct (negb (Qle_bool h (inject_Z 0))); [| exact Htp].
  exists h. split; [reflexivity |].
  apply Qle_trans with (inject_Z T); [exact Hr |]. now rewrite <- Zle_Qle.
Qed.

(** With the announced totals bounded by [B], the distance from the page
    index to [B] shrinks at each iteration. *)
Lemma loop_terminates f T B :
  B = Z.max 1 T -> (B < two53)%Z ->
  (forall i url hs r, f i url hs = Responded r -> Spec.total_at_most E T r) ->
  forall fuel posts page totalPages s,
    transport_of E s = Some f ->
    (1 <= page)%Z ->
    (exists q, totalPages = Fin q /\ (q <= inject_Z B)%Q) ->
    (B + 1 - page <= Z.of_nat fuel)%Z ->
    fetchAllPosts_loop E fuel posts page totalPages s <> OutOfFuel.
Proof.
  intros HB Hlt Hf. induction fuel as [| fuel IH];
    intros posts page totalPages s Ht Hpage Htp Hfuel; rewrite loop_unfold.
  - destruct (js_le _ _ && _) eqn:Hcond; [| discriminate].
    apply andb_true_iff in Hcond. destruct Hcond as [Hle _].
    destruct Htp as (q & -> & Hq). apply js_le_Z in Hle.
    assert (inject_Z page <= inject_Z B)%Q by (eapply Qle_trans; eauto).
    rewrite <- Zle_Qle in H. exfalso. clear - H Hfuel. lia.
  - destruct (js_le _ _ && _) eqn:Hcond; [| discriminate].
    apply andb_true_iff in Hcond. destruct Hcond as [Hle _].
    assert (HpB : (page <= B)%Z).
    { destruct Htp as (q & -> & Hq). apply js_le_Z in Hle.
      assert (inject_Z page <= inject_Z B)%Q by (eapply Qle_trans; eauto).
      now rewrite <- Zle_Qle in H. }
    unfold bind at 1.
    pose proof (fetchJson_cases "/wp/v2/posts" (posts_params E page) s f Ht) as Hj.
    destruct (fetchJson E _ _ s) as [[data r] s1 | e s1 |]; [| discriminate | tauto].
    destruct Hj as (Hresp & _ & _ & _ & Ht1).
    unfold bind at 1. rewrite lift_cases. cbn [fst snd].
    destruct (spread data) as [items | e]; [| discriminate].
    apply IH; auto.
    + unfold js_succ. clear - Hpage.
      destruct (two53 <=? page)%Z; lia.
    + apply (next_totalPages_bounded B T);
        [clear - HB; lia | exact Htp | eapply Hf; exact Hresp].
    + unfold js_succ. clear - HpB Hlt Hfuel.
      destruct (two53 <=? page)%Z eqn:H53; [apply Z.leb_le in H53 |]; lia.
Qed.

Lemma first_iteration_runs :
  js_le (num_of_Z 1) (num_of_Z 1) && js_lt (num_of_nat 0) (BLOG_LIMIT E) = true.
Proof.
  destruct (BLOG_LIMIT_positive E) as (q & -> & Hq).
  apply andb_true_iff. split; [reflexivity |].
  unfold js_lt, num_of_nat, num_of_Z. apply negb_true_iff.
  destruct (Qle_bool q (inject_Z (Z.of_nat 0))) eqn:Hle; [| reflexivity].
  apply Qle_bool_iff in Hle. exfalso. change (inject_Z (Z.of_nat 0)) with 0%Q in Hle. lra.
Qed.

Lemma fetchJson_no_transport pathname params s :
  transport_of E s = None -> exists e, fetchJson E pathname params s = Throw e s.
Proof.
  intros Ht. unfold fetchJson, bind.
  pose proof (getFetch_cases E s) as Hg. rewrite Ht in Hg. rewrite Hg. eauto.
Qed.



End Paging.




Lemma fetchAllPosts_terminates E s T fuel :
  (T < two53)%Z ->
  (forall f, transport_of E s = Some f ->
             forall i url hs r, f i url hs = Responded r -> Spec.total_at_most E T r) ->
  (Z.max 1 T <= Z.of_nat fuel)%Z ->
  fetchAllPosts E fuel s <> OutOfFuel.
Proof.
  intros HT Hf Hfuel.
  assert (Hloop : fetchAllPosts_loop E fuel [] 1 (num_of_Z 1) s <> OutOfFuel).
  { destruct (transport_of E s) as [f |] eqn:Ht.
    - apply (loop_terminates E f T (Z.max 1 T) eq_refl).
      + clear - HT. unfold two53 in *. lia.
      + apply Hf. reflexivity.
      + exact Ht.
      + lia.
      + exists (inject_Z 1). split; [reflexivity |]. rewrite <- Zle_Qle. lia.
      + clear - Hfuel. lia.
    - destruct fuel as [| fuel]; [exfalso; lia |].
      rewrite loop_unfold. cbn [List.length]. rewrite first_iteration_runs.
      unfold bind at 1.
      destruct (fetchJson_no_transport E "/wp/v2/posts" (posts_params E 1) s Ht)
        as (e & ->).
      discriminate. }
  unfold fetchAllPosts, bind.
  destruct (fetchAllPosts_loop E fuel [] 1 (num_of_Z 1) s); [discriminate | discriminate | congruence].
Qed.

(** C4, as amended. When every total that a response announces as a
    number is at most [T], for some [T] below 2^53, the pagination loop ends
    within [max 1 T] iterations, whatever the bodies are. *)
Theorem pagination_terminates_when_totals_bounded E s T :
  (T < two53)%Z ->
  (forall f, transport_of E s = Some f ->
             forall i url hs r, f i url hs = Responded r -> Spec.total_at_most E T r) ->
  forall fuel, (Z.max 1 T <= Z.of_nat fuel)%Z -> fetchAllPosts E fuel s <> OutOfFuel.
Proof. intros HT Hf fuel Hfuel. now apply (fetchAllPosts_terminates E s T fuel). Qed.

Lemma pagination_terminates_witness :
  (4 < two53)%Z
  /\ (forall f, transport_of (Sample.host Sample.four_pages) Sample.fresh = Some f ->
                forall i url hs r, f i url hs = Responded r ->
                                   Spec.total_at_most (Sample.host Sample.four_pages) 4 r)
  /\ fetchAllPosts (Sample.host Sample.four_pages) 4 Sample.fresh <> OutOfFuel.
Proof.
  assert (H4 : (4 < two53)%Z) by reflexivity.
  assert (Hf : forall f, transport_of (Sample.host Sample.four_pages) Sample.fresh = Some f ->
                forall i url hs r, f i url hs = Responded r ->
                                   Spec.total_at_most (Sample.host Sample.four_pages) 4 r).
  { intros f Hf i url hs r Hr. inversion Hf; subst.
    destruct i; inversion Hr; subst; vm_compute; discriminate. }
  split; [exact H4 |]. split; [exact Hf |].
  apply (pagination_terminates_when_totals_bounded
           (Sample.host Sample.four_pages) Sample.fresh 4 H4 Hf 4%nat).
  vm_compute. discriminate.
Defined.

(** Against [Sample.endless] the loop condition holds at every iteration. *)
Lemma endless_pages_never_finish fuel :
  forall page totalPages s,
    transport_of (Sample.host Sample.endless) s = Some Sample.endless ->
    js_le (num_of_Z page) totalPages = true ->
    fetchAllPosts_loop (Sample.host Sample.endless) fuel [] page totalPages s = OutOfFuel.
Proof.
  induction fuel as [| fuel IH]; intros page totalPages s Ht Hle; rewrite loop_unfold;
    rewrite Hle; change (js_lt (num_of_nat (List.length (@nil JSValue)))
                               (BLOG_LIMIT (Sample.host Sample.endless))) with true;
    cbn [andb]; [reflexivity |].
  unfold bind at 1.
  destruct (fetchJson_ok (Sample.host Sample.endless) "/wp/v2/posts"
              (posts_params (Sample.host Sample.endless) page) s Sample.endless
              (mkResponse 200 "OK" [("X-WP-TotalPages", "Infinity")] EmptyString
                          (Some (VArr [])))
              (VArr []) Ht eq_refl eq_refl eq_refl) as (s1 & -> & _ & Ht1).
  unfold bind at 1. cbn [fst snd spread lift ret app].
  apply IH; [exact Ht1 |].
  change (next_totalPages (Sample.host Sample.endless) totalPages
            (mkResponse 200 "OK" [("X-WP-TotalPages", "Infinity")] EmptyString
                        (Some (VArr [])))) with PosInf.
  reflexivity.
Qed.

(** C4 as stated fails: against pages that all succeed, are empty and
    announce [Infinity] pages, no amount of fuel lets the loop end. *)
Lemma pagination_can_run_forever : ~ Stated.pagination_always_terminates.
Proof.
  intros H.
  destruct (H (Sample.host Sample.endless) Sample.fresh Sample.endless eq_refl)
    as (fuel & Hfuel).
  - intros i url hs. eexists. split; [reflexivity |].
    split; [reflexivity | eexists; reflexivity].
  - apply Hfuel. unfold fetchAllPosts, bind.
    now rewrite endless_pages_never_finish.
Qed.

(** ** Rendering *)

Section Rendering.

Variable E : Env.








End Rendering.






(** ** The fallback feed *)

Section Rss.

Variable E : Env.

Lemma segment_nonempty link i x :
  nth_error (link_segments link) i = Some x -> x <> EmptyString.
Proof.
  intros H. apply nth_error_In in H. unfold link_segments in H.
  apply filter_In in H. destruct H as (_ & H). now destruct x.
Qed.

(** Every post the feed callback builds is an [rss_object] with a category
    slug that is not empty; on such objects the filter is the plain test
    [Spec.slug_and_link_recovered]. *)
Lemma rss_post_shape item p :
  rss_post E item = Ok p ->
  exists slug link date categorySlug,
    p = rss_object slug link date categorySlug
    /\ categorySlug <> EmptyString
    /\ link = match match_element "link" item with
              | Some l => VStr l
              | None => VUndefined
              end.
Proof.
  unfold rss_post. intros H. apply res_bind_ok in H. destruct H as (date & _ & H).
  inversion H; subst. clear H. eexists _, _, _, _. split; [reflexivity |].
  split; [| reflexivity].
  destruct (match_element "link" item) as [link |]; cbn [option_map];
    [| discriminate].
  destruct (List.length (link_segments link)) as [| [| n]]; try discriminate.
  destruct (nth_error (link_segments link) _) as [x |] eqn:Hx; cbn;
    [| discriminate].
  eapply segment_nonempty; eauto.
Qed.

Lemma rss_object_filter slug link date c :
  has_slug_and_link (rss_object slug link date c)
  = Ok (Spec.slug_and_link_recovered (rss_object slug link date c)).
Proof.
  unfold has_slug_and_link, Spec.slug_and_link_recovered. cbn.
  destruct (negb (is_empty slug)); reflexivity.
Qed.

Lemma res_filter_pure (A : Type) (f : A -> Res bool) (g : A -> bool) xs :
  (forall x, In x xs -> f x = Ok (g x)) ->
  res_filter f xs = Ok (List.filter g xs).
Proof.
  induction xs as [| a xs IH]; intros H; [reflexivity |].
  cbn [res_filter List.filter]. rewrite (H a) by now left. cbn [res_bind].
  rewrite IH by (intros x Hx; apply H; now right). cbn [res_bind].
  destruct (g a); reflexivity.
Qed.

Lemma rss_filter_pure items all :
  res_map (rss_post E) items = Ok all ->
  res_filter has_slug_and_link all = Ok (List.filter Spec.slug_and_link_recovered all).
Proof.
  intros Hall. apply res_filter_pure. intros p Hp.
  destruct (res_map_In _ _ _ _ _ Hall p Hp) as (item & _ & Hitem).
  apply rss_post_shape in Hitem. destruct Hitem as (slug & link & date & c & -> & _).
  apply rss_object_filter.
Qed.




End Rss.

Lemma rss_try_refused E s f r :
  transport_of E s = Some f ->
  f (requests s) (rssUrl E) (rss_headers E) = Responded r ->
  ok r = false ->
  exists s1, fetchPostsFromRss_try E s
             = Throw (Error ("RSS returned " +:+ status_text E r +:+ ": "
                             +:+ statusText r)) s1.
Proof.
  intros Ht Hf Hok. unfold fetchPostsFromRss_try, bind.
  through_transport E s Ht s1 Hs1 Hreq.
  rewrite Hf, Hok. cbn [negb]. unfold throw. eauto.
Qed.

Lemma rss_try_no_posts E s f r all :
  transport_of E s = Some f ->
  f (requests s) (rssUrl E) (rss_headers E) = Responded r ->
  ok r = true ->
  res_map (rss_post E) (rss_items (body_text r)) = Ok all ->
  List.filter Spec.slug_and_link_recovered all = [] ->
  exists s1, fetchPostsFromRss_try E s = Throw (Error "RSS contained no posts") s1.
Proof.
  intros Ht Hf Hok Hall Hnone. unfold fetchPostsFromRss_try, bind.
  through_transport E s Ht s1 Hs1 Hreq.
  rewrite Hf, Hok. cbn [negb].
  rewrite Hall. cbn [lift]. unfold ret at 1.
  rewrite (rss_filter_pure E _ _ Hall), Hnone. cbn [lift]. unfold ret at 1.
  cbn [List.length Nat.eqb]. unfold throw. eauto.
Qed.

(** C7. [fetchPostsFromRss] always returns and never raises: an exception
    of its [try] block becomes the empty list and one warning on the
    console; a non-success status and a feed without a usable post are two
    such exceptions. *)
Theorem fetchPostsFromRss_never_raises E s :
  (exists posts s',
      fetchPostsFromRss E s = Ret posts s'
      /\ match fetchPostsFromRss_try E s with
         | Ret p s1 => posts = p /\ s' = s1
         | Throw e s1 => posts = [] /\ s' = logged Warn (rss_warning e) s1
         | OutOfFuel => False
         end)
  /\ (forall f r,
         transport_of E s = Some f ->
         f (requests s) (rssUrl E) (rss_headers E) = Responded r ->
         ok r = false ->
         exists s1, fetchPostsFromRss_try E s
                    = Throw (Error ("RSS returned " +:+ status_text E r +:+ ": "
                                    +:+ statusText r)) s1)
  /\ (forall f r all,
         transport_of E s = Some f ->
         f (requests s) (rssUrl E) (rss_headers E) = Responded r ->
         ok r = true ->
         res_map (rss_post E) (rss_items (body_text r)) = Ok all ->
         List.filter Spec.slug_and_link_recovered all = [] ->
         exists s1, fetchPostsFromRss_try E s
                    = Throw (Error "RSS contained no posts") s1).
Proof.
  split; [| split].
  - pose proof (fetchPostsFromRss_cases E s) as Hc.
    destruct (fetchPostsFromRss_try E s) as [p s1 | e s1 |]; [| | tauto];
      eexists _, _; split; eauto.
  - apply rss_try_refused.
  - apply rss_try_no_posts.
Qed.

Lemma fetchPostsFromRss_never_raises_witness :
  exists s1,
    fetchPostsFromRss_try (Sample.host Sample.all_forbidden) Sample.fresh
    = Throw (Error "RSS returned 403: Forbidden") s1
    /\ fetchPostsFromRss (Sample.host Sample.all_forbidden) Sample.fresh
       = Ret [] (logged Warn "⚠️  RSS fallback failed: RSS returned 403: Forbidden" s1).
Proof.
  destruct (proj1 (proj2 (fetchPostsFromRss_never_raises
                            (Sample.host Sample.all_forbidden) Sample.fresh))
                  Sample.all_forbidden
                  (mkResponse 403 "Forbidden" [] "denied" None)
                  eq_refl eq_refl eq_refl) as (s1 & Hs1).
  exists s1. split; [exact Hs1 |].
  unfold fetchPostsFromRss, try_catch. rewrite Hs1. reflexivity.
Defined.






(** ** Links of the feed *)

(** [segs[segs.length - 2]] is the element before the last one. *)
Lemma penultimate_cons (A : Type) (x y z : A) rest :
  Spec.penultimate (x :: y :: z :: rest) = Spec.penultimate (y :: z :: rest).
Proof. reflexivity. Qed.

Lemma penultimate_nth (A : Type) (l : list A) :
  (2 <= List.length l)%nat ->
  nth_error l (List.length l - 2) = Spec.penultimate l.
Proof.
  induction l as [| x rest IH]; cbn [List.length]; [lia |].
  intros Hlen. destruct rest as [| y rest']; cbn [List.length] in *; [lia |].
  destruct rest' as [| z rest'']; [reflexivity |].
  rewrite penultimate_cons, <- IH by (cbn [List.length]; lia).
  cbn [List.length].
  replace (S (S (S (List.length rest''))) - 2)%nat
    with (S (S (S (List.length rest'')) - 2))%nat by lia.
  reflexivity.
Qed.

Lemma penultimate_short (A : Type) (l : list A) :
  (List.length l < 2)%nat -> Spec.penultimate l = None.
Proof.
  destruct l as [| x [| y rest]]; cbn [List.length]; intros H; try reflexivity. lia.
Qed.

(** [split] on a one-character separator: the text in front of a
    separator and the text behind it are split independently, and a text
    without the separator is one piece. *)
Lemma prefix_char d c s :
  String.prefix (String d EmptyString) (String c s) = Ascii.eqb c d.
Proof.
  cbn [String.prefix]. destruct (ascii_dec d c) as [<- | Hne].
  - rewrite Ascii.eqb_refl. now destruct s.
  - symmetry. apply Ascii.eqb_neq. congruence.
Qed.

Lemma split_aux_cons d cur c s :
  str_split_aux (String d EmptyString) 0 cur (String c s)
  = if Ascii.eqb c d
    then string_of_list_ascii (rev cur) :: str_split_aux (String d EmptyString) 0 [] s
    else str_split_aux (String d EmptyString) 0 (c :: cur) s.
Proof.
  cbn [str_split_aux]. rewrite prefix_char. reflexivity.
Qed.

Lemma split_aux_sep d cur a b :
  str_split_aux (String d EmptyString) 0 cur (a +:+ String d b)
  = str_split_aux (String d EmptyString) 0 cur a
    ++ str_split_aux (String d EmptyString) 0 [] b.
Proof.
  revert cur. induction a as [| c a IH]; intros cur.
  - change (EmptyString +:+ String d b) with (String d b).
    rewrite split_aux_cons, Ascii.eqb_refl. reflexivity.
  - change (String c a +:+ String d b) with (String c (a +:+ String d b)).
    rewrite !split_aux_cons. destruct (Ascii.eqb c d).
    + rewrite IH. reflexivity.
    + apply IH.
Qed.

Lemma split_aux_free d cur s :
  Spec.free_of d s = true ->
  str_split_aux (String d EmptyString) 0 cur s
  = [string_of_list_ascii (rev cur ++ list_ascii_of_string s)].
Proof.
  revert cur. induction s as [| c s IH]; intros cur H.
  - cbn. now rewrite app_nil_r.
  - cbn [Spec.free_of] in H. apply andb_true_iff in H. destruct H as [Hc Hs].
    rewrite split_aux_cons. apply negb_true_iff in Hc. rewrite Hc.
    rewrite IH by exact Hs. cbn [rev list_ascii_of_string].
    now rewrite <- app_assoc.
Qed.

Lemma str_split_free d s :
  Spec.free_of d s = true -> str_split (String d EmptyString) s = [s].
Proof.
  intros H. unfold str_split. rewrite split_aux_free by exact H.
  cbn [rev app]. now rewrite string_of_list_ascii_of_string.
Qed.

(** The date part of [YYYY-MM-DDTHH:mm:ss.sssZ] is [YYYY-MM-DD]. *)
Lemma date_part_instant day time :
  Spec.free_of "T"%char day = true ->
  date_part (day +:+ "T" +:+ time) = day.
Proof.
  intros H. unfold date_part, str_split.
  change ("T" +:+ time) with (String "T"%char time).
  rewrite (split_aux_sep "T"%char), (split_aux_free "T"%char) by exact H.
  cbn [rev app hd]. apply string_of_list_ascii_of_string.
Qed.

Lemma link_segments_app a b :
  link_segments (a +:+ "/" +:+ b) = link_segments a ++ link_segments b.
Proof.
  unfold link_segments, str_split.
  change ("/" +:+ b) with (String "/"%char b).
  rewrite (split_aux_sep "/"%char). apply List.filter_app.
Qed.

Lemma link_segments_piece s : Spec.piece s -> link_segments s = [s].
Proof.
  intros [Hfree Hne]. unfold link_segments.
  rewrite (str_split_free "/"%char) by exact Hfree. cbn [List.filter].
  destruct s; [congruence | reflexivity].
Qed.

Lemma link_segments_empty : link_segments EmptyString = [].
Proof. reflexivity. Qed.

(** A link that ends in [/c/s/] has [c] and [s] as its last two pieces. *)
Lemma link_segments_two base c s :
  Spec.piece c -> Spec.piece s ->
  link_segments (base +:+ "/" +:+ c +:+ "/" +:+ s +:+ "/")
  = link_segments base ++ [c; s].
Proof.
  intros Hc Hs. change (s +:+ "/") with (s +:+ "/" +:+ EmptyString).
  rewrite !link_segments_app.
  rewrite (link_segments_piece c Hc), (link_segments_piece s Hs), link_segments_empty.
  reflexivity.
Qed.

Section Derive.

Variable E : Env.

(** The slug and the category slug of a fallback post, in terms of the
    pieces of the whole link text. *)
Lemma rss_post_fields item post :
  rss_post E item = Ok post ->
  let segs := match match_element "link" item with
              | Some link => link_segments link
              | None => []
              end in
  GetField post "slug" = Ok (VStr (default EmptyString (last segs)))
  /\ category_slug_of post = Ok (VStr (default "blog" (Spec.penultimate segs))).
Proof.
  unfold rss_post. intros H. apply res_bind_ok in H. destruct H as (date & _ & H).
  inversion H; subst. clear H.
  destruct (match_element "link" item) as [link |]; cbn [option_map];
    [| split; reflexivity].
  split; [reflexivity |].
  unfold category_slug_of, embedded_category. cbn.
  destruct (le_lt_dec 2 (List.length (link_segments link))) as [Hge | Hlt].
  - rewrite <- (penultimate_nth _ _ Hge).
    destruct (List.length (link_segments link)) as [| [| n]]; [lia | lia | reflexivity].
  - rewrite (penultimate_short _ _ Hlt).
    destruct (List.length (link_segments link)) as [| [| n]]; [reflexivity | reflexivity | lia].
Qed.
End Derive.

Lemma append_assoc (a b c : string) : (a +:+ b) +:+ c = a +:+ (b +:+ c).
Proof.
  induction a as [| x a IH]; [reflexivity |].
  change (String x a +:+ b) with (String x (a +:+ b)).
  change (String x (a +:+ b) +:+ c) with (String x ((a +:+ b) +:+ c)).
  now rewrite IH.
Qed.









(** ** Sample runs *)

(** The example of the specification, end to end: one post of the primary
    source and two categories, one of them without posts. *)
Example one_post_run :
  exists s',
    writeBlogSitemap (Sample.host Sample.one_post) 5 Sample.fresh = Ret true s'
    /\ requests s' = 2%nat
    /\ fs_files s' !! outputPath (Sample.host Sample.one_post)
       = Some (sitemap_of
                 [url_block "https://example.com/blog/news" "2026-11-02" "weekly" "0.7";
                  url_block "https://example.com/news/hello-world" "2024-01-15"
                            "monthly" "0.6"]).
Proof.
  eexists. split; [vm_compute; reflexivity |]. split; vm_compute; reflexivity.
Qed.

(** The primary source refuses, the feed answers, the categories endpoint
    fails: the run succeeds on the two usable fragments of the feed, dated
    by the clock and not by their [pubDate]. *)
Example feed_only_run :
  exists s',
    writeBlogSitemap (Sample.host Sample.feed_only) 5 Sample.fresh = Ret true s'
    /\ requests s' = 3%nat
    /\ fs_files s' !! outputPath (Sample.host Sample.feed_only)
       = Some (sitemap_of
                 [url_block "https://example.com/news/hello-world" "2026-11-02"
                            "monthly" "0.6";
                  url_block "https://example.com/example.com/solo" "2026-11-02"
                            "monthly" "0.6"]).
Proof.
  eexists. split; [vm_compute; reflexivity |]. split; vm_compute; reflexivity.
Qed.

(** Four requests although only the first response carried the header. *)
Example four_pages_run :
  exists s',
    fetchAllPosts (Sample.host Sample.four_pages) 10 Sample.fresh = Ret [] s'
    /\ requests s' = 4%nat
    /\ headers_get (mkResponse 200 "OK" [] EmptyString (Some (VArr [])))
                   "X-WP-TotalPages" = None.
Proof.
  eexists. split; [vm_compute; reflexivity |]. split; reflexivity.
Qed.

(** A link with one path segment: the host name becomes the category slug. *)
Example solo_fragment :
  rss_post (Sample.host Sample.feed_first)
           "<item><title>Solo</title><link>https://example.com/solo/</link></item>"
  = Ok (rss_object "solo" (VStr "https://example.com/solo/")
                   "2026-11-02T09:30:00.000Z" "example.com")
  /\ link_segments "https://example.com/solo/" = ["https:"; "example.com"; "solo"]
  /\ Spec.url_path_segments "https://example.com/solo/" = ["solo"].
Proof. repeat split; reflexivity. Qed.

(** A link made of a slash: a link and no slug, and the filter says no. *)
Example root_fragment :
  rss_post (Sample.host Sample.feed_first)
           "<item><title>Root</title><link>/</link></item>"
  = Ok (rss_object EmptyString (VStr "/") "2026-11-02T09:30:00.000Z" "blog")
  /\ has_slug_and_link
       (rss_object EmptyString (VStr "/") "2026-11-02T09:30:00.000Z" "blog")
     = Ok false.
Proof. split; reflexivity. Qed.

(** * Further properties

    What the script does beyond the sentences of its specification: how
    it reads its configuration, what a request looks like and how it can
    fail, how the pages of the primary source add up, which source a run
    ends up using, what a run leaves on disk however it goes, how the feed
    is cut into posts, and when the markup it writes is well-formed. *)

(** ** Configuration *)

Lemma env_truthy_raw E name :
  env_truthy E name
  = match process_env E name with
    | Some EmptyString | None => None
    | Some s => Some s
    end.
Proof. unfold env_truthy. destruct (process_env E name) as [[| c s] |]; reflexivity. Qed.

Lemma js_gt_zero_iff q : js_gt (Fin q) (num_of_Z 0) = true <-> (0 < q)%Q.
Proof.
  split; [apply js_gt_zero |].
  intros H. unfold js_gt, js_lt, num_of_Z. apply negb_true_iff.
  destruct (Qle_bool q (inject_Z 0)) eqn:Hle; [| reflexivity].
  apply Qle_bool_iff in Hle. exfalso. change (inject_Z 0) with 0%Q in Hle. lra.
Qed.

(** X1. [BLOG_LIMIT] is always a positive finite number: the requested
    limit when [VITE_PRERENDER_BLOG_LIMIT] reads as a finite number above
    zero, and 100 when the variable is unset or empty, reads as zero or
    less, or does not read as a finite number. *)
Theorem blog_limit_fallback E :
  (exists q, BLOG_LIMIT E = Fin q /\ (0 < q)%Q)
  /\ (forall q, requestedBlogLimit E = Fin q -> (0 < q)%Q -> BLOG_LIMIT E = Fin q)
  /\ (forall q, requestedBlogLimit E = Fin q -> (q <= 0)%Q ->
                BLOG_LIMIT E = num_of_Z 100)
  /\ (isFinite (requestedBlogLimit E) = false -> BLOG_LIMIT E = num_of_Z 100)
  /\ (process_env E "VITE_PRERENDER_BLOG_LIMIT" = None
      \/ process_env E "VITE_PRERENDER_BLOG_LIMIT" = Some EmptyString ->
      BLOG_LIMIT E = num_of_Z 100).
Proof.
  split; [apply BLOG_LIMIT_positive |].
  unfold BLOG_LIMIT. repeat split.
  - intros q -> Hq. cbn [isFinite andb].
    now rewrite (proj2 (js_gt_zero_iff q) Hq).
  - intros q -> Hq. cbn [isFinite andb].
    destruct (js_gt (Fin q) (num_of_Z 0)) eqn:Hgt; [| reflexivity].
    apply js_gt_zero_iff in Hgt. exfalso. lra.
  - intros ->. reflexivity.
  - intros Hunset.
    assert (Hr : requestedBlogLimit E = num_of_Z 100).
    { unfold requestedBlogLimit. rewrite env_truthy_raw.
      destruct Hunset as [-> | ->]; reflexivity. }
    rewrite Hr. reflexivity.
Qed.

Lemma blog_limit_fallback_witness :
  BLOG_LIMIT (Cases.host [("VITE_PRERENDER_BLOG_LIMIT", "2")] None None) = num_of_Z 2
  /\ BLOG_LIMIT (Cases.host [("VITE_PRERENDER_BLOG_LIMIT", "0")] None None) = num_of_Z 100
  /\ BLOG_LIMIT (Cases.host [("VITE_PRERENDER_BLOG_LIMIT", "many")] None None)
     = num_of_Z 100.
Proof.
  split; [| split].
  - apply (proj1 (proj2 (blog_limit_fallback _)) (inject_Z 2)); reflexivity.
  - apply (proj1 (proj2 (proj2 (blog_limit_fallback _))) (inject_Z 0));
      [reflexivity | vm_compute; discriminate].
  - apply (proj1 (proj2 (proj2 (proj2 (blog_limit_fallback _))))). reflexivity.
Defined.

(** X2. Every page request asks for [per_page = min(PAGE_SIZE, BLOG_LIMIT)]
    posts, a positive finite number that exceeds neither 100 nor the
    limit. *)
Theorem per_page_bounded E :
  exists q,
    Math_min PAGE_SIZE (BLOG_LIMIT E) = Fin q
    /\ (0 < q)%Q /\ (q <= 100)%Q
    /\ js_le (Fin q) (BLOG_LIMIT E) = true
    /\ forall page, In ("per_page", Number_toString E (Fin q)) (posts_params E page).
Proof.
  destruct (BLOG_LIMIT_positive E) as (l & Hl & Hpos). rewrite Hl.
  unfold Math_min, PAGE_SIZE, num_of_Z, js_lt.
  destruct (Qle_bool (inject_Z 100) l) eqn:Hle; cbn [negb].
  - apply Qle_bool_iff in Hle. exists (inject_Z 100).
    split; [reflexivity |]. split; [reflexivity |]. split; [apply Qle_refl |].
    split.
    + unfold js_le, js_lt. rewrite negb_involutive. now apply Qle_bool_iff.
    + intros page. unfold posts_params. rewrite Hl.
      unfold Math_min, PAGE_SIZE, num_of_Z, js_lt.
      apply Qle_bool_iff in Hle. rewrite Hle. cbn. auto.
  - assert (Hlt : (l < inject_Z 100)%Q).
    { destruct (Qlt_le_dec l (inject_Z 100)) as [H | H]; [exact H |].
      apply Qle_bool_iff in H. congruence. }
    exists l. split; [reflexivity |]. split; [exact Hpos |].
    split; [apply Qlt_le_weak; exact Hlt |]. split.
    + unfold js_le, js_lt. rewrite negb_involutive. apply Qle_bool_iff. apply Qle_refl.
    + intros page. unfold posts_params. rewrite Hl.
      unfold Math_min, PAGE_SIZE, num_of_Z, js_lt. rewrite Hle. cbn. auto.
Qed.

(** [s.replace(/\/$/, '')] *)
Lemma strip_trailing_slash_slash s : strip_trailing_slash (s +:+ "/") = s.
Proof.
  induction s as [| c s IH]; [reflexivity |].
  change (String c s +:+ "/") with (String c (s +:+ "/")).
  cbn [strip_trailing_slash]. rewrite IH.
  destruct s; reflexivity.
Qed.

Lemma strip_trailing_slash_other s :
  (forall t, s <> t +:+ "/") -> strip_trailing_slash s = s.
Proof.
  induction s as [| c s IH]; intros H; [reflexivity |].
  cbn [strip_trailing_slash]. destruct s as [| c' s'].
  - destruct (Ascii.eqb c "/"%char) eqn:Hc; [| reflexivity].
    apply Ascii.eqb_eq in Hc. subst. exfalso. apply (H EmptyString). reflexivity.
  - rewrite IH; [reflexivity |].
    intros t Ht. apply (H (String c t)). rewrite Ht. reflexivity.
Qed.

(** X3. [WP_API_BASE] wins over [VITE_WP_API_BASE] whenever it is set and
    not empty, and the chosen base loses exactly one trailing slash: a base
    written with a final slash and one written without give the same
    value. *)
Theorem api_base_precedence E :
  (forall a, process_env E "WP_API_BASE" = Some a -> a <> EmptyString ->
             WP_API_BASE E = strip_trailing_slash a)
  /\ (forall b,
         process_env E "WP_API_BASE" = None
         \/ process_env E "WP_API_BASE" = Some EmptyString ->
         process_env E "VITE_WP_API_BASE" = Some b -> b <> EmptyString ->
         WP_API_BASE E = strip_trailing_slash b)
  /\ (forall root, strip_trailing_slash (root +:+ "/") = root)
  /\ (forall root, (forall t, root <> t +:+ "/") -> strip_trailing_slash root = root).
Proof.
  repeat split.
  - intros a Ha Hne. unfold WP_API_BASE. rewrite env_truthy_raw, Ha.
    destruct a; [congruence | reflexivity].
  - intros b Ha Hb Hne. unfold WP_API_BASE. rewrite !env_truthy_raw, Hb.
    destruct Ha as [-> | ->]; destruct b; try congruence; reflexivity.
  - apply strip_trailing_slash_slash.
  - apply strip_trailing_slash_other.
Qed.

Lemma api_base_precedence_witness :
  WP_API_BASE (Cases.host [("VITE_WP_API_BASE", "https://b.example/wp-json");
                           ("WP_API_BASE", "https://a.example/wp-json/")] None None)
  = "https://a.example/wp-json"
  /\ WP_API_BASE (Cases.host [("VITE_WP_API_BASE", "https://b.example/wp-json");
                              ("WP_API_BASE", EmptyString)] None None)
     = "https://b.example/wp-json".
Proof.
  split.
  - rewrite (proj1 (api_base_precedence _) "https://a.example/wp-json/");
      [reflexivity | reflexivity | discriminate].
  - rewrite (proj1 (proj2 (api_base_precedence _)) "https://b.example/wp-json");
      [reflexivity | right; reflexivity | reflexivity | discriminate].
Defined.

(** ** Requests *)

(** X4. Once [getFetch] has returned a transport it is cached: a second
    call returns the same transport and changes nothing; a cached transport
    wins over the host's, [globalThis.fetch] over [node-fetch]; and
    [getFetch] itself issues no request, writes no line and touches no
    file. *)
Theorem getFetch_caches E s f s1 :
  getFetch E s = Ret f s1 ->
  cachedFetch s1 = Some f
  /\ getFetch E s1 = Ret f s1
  /\ requests s1 = requests s /\ console s1 = console s
  /\ fs_dirs s1 = fs_dirs s /\ fs_files s1 = fs_files s
  /\ (forall g, cachedFetch s = Some g -> f = g /\ s1 = s)
  /\ (forall g, cachedFetch s = None -> global_fetch E = Some g -> f = g).
Proof.
  unfold getFetch. intros H.
  destruct (cachedFetch s) as [c |] eqn:Hc.
  - injection H as <- <-. rewrite Hc.
    repeat split; try reflexivity; try congruence.
  - destruct (global_fetch E) as [g |] eqn:Hg.
    + injection H as <- <-. cbn.
      repeat split; try reflexivity; try congruence; discriminate.
    + destruct (node_fetch E) as [n |] eqn:Hn; [| discriminate].
      injection H as <- <-. cbn.
      repeat split; try reflexivity; try congruence; discriminate.
Qed.

Lemma getFetch_caches_witness :
  exists s1,
    getFetch (Sample.host Sample.one_post) Sample.fresh = Ret Sample.one_post s1
    /\ cachedFetch s1 = Some Sample.one_post
    /\ getFetch (Sample.host Sample.one_post) s1 = Ret Sample.one_post s1.
Proof.
  assert (H : exists s1, getFetch (Sample.host Sample.one_post) Sample.fresh
                         = Ret Sample.one_post s1)
    by (eexists; vm_compute; reflexivity).
  destruct H as (s1 & H). exists s1.
  pose proof (getFetch_caches _ _ _ _ H) as (Hc & Hagain & _).
  split; [exact H |]. split; [exact Hc | exact Hagain].
Defined.

(** X5. A request to the API carries at most one [Authorization] header:
    [Bearer] with the token when [WP_API_TOKEN] is set, whatever the user
    and password; otherwise [Basic] when both [WP_API_USER] and
    [WP_API_PASSWORD] are set; none when one of the two is missing.  The
    feed request never carries credentials. *)
Theorem authorization_precedence E :
  (length (Shape.authorization (buildHeaders E)) <= 1)%nat
  /\ (forall token, process_env E "WP_API_TOKEN" = Some token -> token <> EmptyString ->
                    Shape.authorization (buildHeaders E) = ["Bearer " +:+ token])
  /\ (forall user password,
         process_env E "WP_API_TOKEN" = None
         \/ process_env E "WP_API_TOKEN" = Some EmptyString ->
         process_env E "WP_API_USER" = Some user -> user <> EmptyString ->
         process_env E "WP_API_PASSWORD" = Some password -> password <> EmptyString ->
         Shape.authorization (buildHeaders E)
         = ["Basic " +:+ base64 E (user +:+ ":" +:+ password)])
  /\ (process_env E "WP_API_TOKEN" = None
      \/ process_env E "WP_API_TOKEN" = Some EmptyString ->
      env_truthy E "WP_API_USER" = None \/ env_truthy E "WP_API_PASSWORD" = None ->
      Shape.authorization (buildHeaders E) = [])
  /\ Shape.authorization (rss_headers E) = [].
Proof.
  unfold buildHeaders, Shape.authorization.
  repeat split.
  - destruct (env_truthy E "WP_API_TOKEN");
      [| destruct (env_truthy E "WP_API_USER"), (env_truthy E "WP_API_PASSWORD")];
      cbn; lia.
  - intros token Ht Hne. unfold env_truthy at 1. rewrite Ht.
    destruct token; [congruence |]. reflexivity.
  - intros user password Ht Hu Hune Hp Hpne.
    unfold env_truthy. rewrite Hu, Hp.
    destruct user; [congruence |]. destruct password; [congruence |].
    destruct Ht as [-> | ->]; reflexivity.
  - intros Ht Hup.
    assert (Hnone : env_truthy E "WP_API_TOKEN" = None)
      by (unfold env_truthy; destruct Ht as [-> | ->]; reflexivity).
    rewrite Hnone.
    destruct Hup as [-> | ->]; [reflexivity |].
    destruct (env_truthy E "WP_API_USER"); reflexivity.
Qed.

Lemma authorization_precedence_witness :
  Shape.authorization
    (buildHeaders (Cases.host [("WP_API_USER", "editor"); ("WP_API_PASSWORD", "secret");
                               ("WP_API_TOKEN", "t0ken")] None None))
  = ["Bearer t0ken"]
  /\ Shape.authorization
       (buildHeaders (Cases.host [("WP_API_USER", "editor");
                                  ("WP_API_PASSWORD", "secret")] None None))
     = ["Basic editor:secret"]
  /\ Shape.authorization (buildHeaders (Cases.host [("WP_API_USER", "editor")] None None))
     = [].
Proof.
  split; [| split].
  - apply (proj1 (proj2 (authorization_precedence _)) "t0ken");
      [reflexivity | discriminate].
  - etransitivity;
      [apply (proj1 (proj2 (proj2 (authorization_precedence _))) "editor" "secret");
       [left; reflexivity | reflexivity | discriminate | reflexivity | discriminate]
      | reflexivity].
  - apply (proj1 (proj2 (proj2 (proj2 (authorization_precedence _)))));
      [left; reflexivity | right; reflexivity].
Defined.
















(** ** Pagination *)

Lemma fetchJson_throws pathname params E s f e s1 :
  transport_of E s = Some f ->
  fetchJson E pathname params s = Throw e s1 ->
  requests s1 = S (requests s) /\ transport_of E s1 = Some f
  /\ match f (requests s) (buildUrl E pathname params) (buildHeaders E) with
     | Rejected e' => e = e'
     | Responded r =>
         if ok r then body_json r = None /\ e = SyntaxError "Unexpected token in JSON"
         else e = Error ("WordPress API " +:+ status_text E r +:+ ": "
                         +:+ statusText r +:+ " - " +:+ buildUrl E pathname params
                         +:+ " - " +:+ substring 0 200 (body_text r))
     end.
Proof.
  intros Ht H.
  pose proof (fetchJson_cases E pathname params s f Ht) as Hc. rewrite H in Hc.
  destruct Hc as (Hr & Ht1). split; [exact Hr |]. split; [exact Ht1 |].
  revert H. unfold fetchJson, bind.
  through_transport E s Ht s2 Hs2 Hreq.
  destruct (f (requests s) (buildUrl E pathname params) (buildHeaders E)) as [e' | r].
  - intros [= <- _]. reflexivity.
  - destruct (ok r); cbn [negb].
    + unfold response_json. destruct (body_json r); cbn; [discriminate |].
      intros [= <- _]. split; reflexivity.
    + intros [= <- _]. reflexivity.
Qed.

Section Pages.

Variable E : Env.
Variable f : Transport.
Variable s : State.

Lemma loop_pages fuel :
  forall posts k totalPages s1,
    transport_of E s1 = Some f ->
    requests s1 = (requests s + k)%nat ->
    match fetchAllPosts_loop E fuel posts (Shape.page_number k) totalPages s1 with
    | Ret out s' =>
        exists pages,
          out = posts ++ concat pages
          /\ requests s' = (requests s1 + List.length pages)%nat
          /\ (forall i items, nth_error pages i = Some items ->
                              Shape.page_carries E f s (k + i) items
                              /\ js_lt (num_of_nat (List.length
                                          (posts ++ concat (firstn i pages))))
                                       (BLOG_LIMIT E) = true)
          /\ (pages = [] ->
              js_le (num_of_Z (Shape.page_number k)) totalPages
              && js_lt (num_of_nat (List.length posts)) (BLOG_LIMIT E) = false)
    | Throw e s' =>
        exists pages,
          requests s' = S (requests s1 + List.length pages)%nat
          /\ (forall i items, nth_error pages i = Some items ->
                              Shape.page_carries E f s (k + i) items)
          /\ Shape.page_fails E f s (k + List.length pages) e
    | OutOfFuel => True
    end.
Proof.
  induction fuel as [| fuel IH]; intros posts k totalPages s1 Ht Hreq;
    rewrite loop_unfold;
    destruct (js_le (num_of_Z (Shape.page_number k)) totalPages
              && js_lt (num_of_nat (List.length posts)) (BLOG_LIMIT E)) eqn:Hcond.
  - exact I.
  - exists []. cbn. rewrite app_nil_r, Nat.add_0_r.
    split; [reflexivity |]. split; [reflexivity |].
    split; [intros [| i] items; discriminate | intros _; reflexivity].
  - apply andb_true_iff in Hcond as [_ Hlim].
    unfold bind at 1.
    destruct (fetchJson E "/wp/v2/posts" (posts_params E (Shape.page_number k)) s1)
      as [[data r] s2 | e s2 |] eqn:Hfj.
    + pose proof (fetchJson_cases E "/wp/v2/posts"
                  (posts_params E (Shape.page_number k)) s1 f Ht) as Hc.
      rewrite Hfj in Hc.
      destruct Hc as (Hf & Hok & Hj & Hr2 & Ht2).
      unfold bind at 1. cbn [fst snd]. rewrite lift_cases.
      destruct (spread data) as [items0 | e] eqn:Hsp.
      * assert (Hk : requests s2 = (requests s + S k)%nat) by lia.
        specialize (IH (posts ++ items0) (S k) (next_totalPages E totalPages r) s2 Ht2 Hk).
        change (Shape.page_number (S k)) with (js_succ (Shape.page_number k)) in IH.
        assert (Hfirst : Shape.page_carries E f s (k + 0) items0).
        { exists r, data. unfold Shape.page_request, posts_url.
          rewrite Nat.add_0_r, <- Hreq. auto. }
        destruct (fetchAllPosts_loop E fuel (posts ++ items0)
                    (js_succ (Shape.page_number k))
                    (next_totalPages E totalPages r) s2) as [out s' | e s' |];
          [| | exact I].
        -- destruct IH as (pages & -> & Hr' & Hpages & _).
           exists (items0 :: pages). cbn [concat List.length].
           split; [now rewrite app_assoc |]. split; [lia |].
           split; [| discriminate].
           intros [| i] items Hi.
           ++ injection Hi as <-. split; [exact Hfirst |].
              cbn. now rewrite app_nil_r.
           ++ cbn in Hi. destruct (Hpages i items Hi) as (Hc & Hl).
              replace (k + S i)%nat with (S k + i)%nat by lia.
              split; [exact Hc |]. cbn [firstn concat]. now rewrite app_assoc.
        -- destruct IH as (pages & Hr' & Hpages & Hfail).
           exists (items0 :: pages). cbn [List.length].
           split; [lia |]. split.
           ++ intros [| i] items Hi.
              ** injection Hi as <-. exact Hfirst.
              ** cbn in Hi. replace (k + S i)%nat with (S k + i)%nat by lia. auto.
           ++ replace (k + S (List.length pages))%nat
                with (S k + List.length pages)%nat by lia. exact Hfail.
      * exists []. cbn [List.length]. rewrite !Nat.add_0_r.
        split; [lia |]. split; [intros [| i] items; discriminate |].
        unfold Shape.page_fails, Shape.page_request, posts_url.
        rewrite <- Hreq, Hf, Hok, Hj. exact Hsp.
    + destruct (fetchJson_throws _ _ E s1 f e s2 Ht Hfj) as (Hr2 & _ & Hwhy).
      exists []. cbn [List.length]. rewrite !Nat.add_0_r.
      split; [lia |]. split; [intros [| i] items; discriminate |].
      unfold Shape.page_fails, Shape.page_request, posts_url. rewrite <- Hreq.
      destruct (f (requests s1) _ _) as [e' | r]; [exact Hwhy |].
      destruct (ok r).
      * destruct Hwhy as (-> & ->). reflexivity.
      * eexists. exact Hwhy.
    + exact I.
  - exists []. cbn. rewrite app_nil_r, Nat.add_0_r.
    split; [reflexivity |]. split; [reflexivity |].
    split; [intros [| i] items; discriminate | intros _; reflexivity].
Qed.

End Pages.

Lemma page_number_small i :
  (Z.of_nat i < two53)%Z -> Shape.page_number i = (Z.of_nat i + 1)%Z.
Proof.
  induction i as [| i IH]; intros H; [reflexivity |].
  change (Shape.page_number (S i)) with (js_succ (Shape.page_number i)).
  rewrite IH by lia. unfold js_succ.
  destruct (two53 <=? Z.of_nat i + 1)%Z eqn:Hle; [apply Z.leb_le in Hle |]; lia.
Qed.

(** X9. When [fetchAllPosts] returns, it has issued one request per page,
    at least one, page [i + 1] at the i-th request; every page was a
    success response with an iterable JSON body; each request was made
    while fewer than [BLOG_LIMIT] posts were collected; and the result is
    the concatenation of the pages in order, cut to [BLOG_LIMIT]. *)
Theorem fetchAllPosts_collects_pages E fuel s f posts s' :
  transport_of E s = Some f ->
  fetchAllPosts E fuel s = Ret posts s' ->
  exists pages,
    posts = slice0 (concat pages) (BLOG_LIMIT E)
    /\ requests s' = (requests s + List.length pages)%nat
    /\ (1 <= List.length pages)%nat
    /\ (forall i items,
           nth_error pages i = Some items ->
           Shape.page_carries E f s i items
           /\ js_lt (num_of_nat (List.length (concat (firstn i pages))))
                    (BLOG_LIMIT E) = true)
    /\ (forall i, (Z.of_nat i < two53)%Z -> Shape.page_number i = (Z.of_nat i + 1)%Z).
Proof.
  intros Ht. unfold fetchAllPosts, bind.
  pose proof (loop_pages E f s fuel [] 0 (num_of_Z 1) s Ht (eq_sym (Nat.add_0_r _)))
    as Hloop.
  change (Shape.page_number 0) with 1%Z in Hloop.
  destruct (fetchAllPosts_loop E fuel [] 1 (num_of_Z 1) s) as [out s1 | e s1 |];
    [| discriminate | discriminate].
  intros [= <- <-].
  destruct Hloop as (pages & -> & Hr & Hpages & Hnil).
  exists pages. split; [reflexivity |]. split; [exact Hr |]. split.
  - destruct pages as [| p pages]; [| cbn; lia].
    specialize (Hnil eq_refl). pose proof (first_iteration_runs E) as H1.
    cbn [List.length] in Hnil. congruence.
  - split; [| apply page_number_small].
    intros i items Hi. destruct (Hpages i items Hi) as (Hc & Hl). auto.
Qed.

Lemma fetchAllPosts_collects_pages_witness :
  exists s',
    fetchAllPosts (Cases.host [] (Some Cases.two_pages) None) 5 Sample.fresh
    = Ret [Cases.post_named "a"; Cases.post_named "b"; Cases.post_named "c"] s'
    /\ exists pages,
         [Cases.post_named "a"; Cases.post_named "b"; Cases.post_named "c"]
         = slice0 (concat pages) (BLOG_LIMIT (Cases.host [] (Some Cases.two_pages) None))
         /\ requests s' = List.length pages.
Proof.
  assert (H : exists s',
             fetchAllPosts (Cases.host [] (Some Cases.two_pages) None) 5 Sample.fresh
             = Ret [Cases.post_named "a"; Cases.post_named "b"; Cases.post_named "c"] s')
    by (eexists; vm_compute; reflexivity).
  destruct H as (s' & H). exists s'. split; [exact H |].
  destruct (fetchAllPosts_collects_pages
              (Cases.host [] (Some Cases.two_pages) None) 5 Sample.fresh
              Cases.two_pages _ _ eq_refl H)
    as (pages & Hposts & Hr & _).
  exists pages. split; [exact Hposts | exact Hr].
Defined.



Section Carrying.

Variable E : Env.
Variable f : Transport.
Variable q : Q.
Hypothesis Hlimit : BLOG_LIMIT E = Fin q.
Hypothesis Hcarry :
  forall i url hs r data items,
    f i url hs = Responded r -> body_json r = Some data ->
    spread data = Ok items -> items <> [].

Lemma loop_ends_when_pages_carry fuel :
  forall posts page totalPages s,
    transport_of E s = Some f ->
    (Qceiling q - Z.of_nat (List.length posts) <= Z.of_nat fuel)%Z ->
    fetchAllPosts_loop E fuel posts page totalPages s <> OutOfFuel.
Proof.
  induction fuel as [| fuel IH]; intros posts page totalPages s Ht Hfuel;
    rewrite loop_unfold;
    destruct (js_le (num_of_Z page) totalPages
              && js_lt (num_of_nat (List.length posts)) (BLOG_LIMIT E)) eqn:Hcond;
    try discriminate;
    apply andb_true_iff in Hcond as [_ Hlim];
    rewrite Hlimit in Hlim; unfold js_lt, num_of_nat, num_of_Z in Hlim;
    apply negb_true_iff in Hlim;
    assert (Hlt : (Z.of_nat (List.length posts) < Qceiling q)%Z).
  1, 3: destruct (Z_lt_le_dec (Z.of_nat (List.length posts)) (Qceiling q))
      as [Hl | Hl]; [exact Hl | exfalso];
    assert (Hle : Qle_bool q (inject_Z (Z.of_nat (List.length posts))) = true);
    [| congruence];
    apply Qle_bool_iff; apply Qle_trans with (inject_Z (Qceiling q));
    [apply Qle_ceiling | rewrite <- Zle_Qle; exact Hl].
  - exfalso. lia.
  - unfold bind at 1.
    destruct (fetchJson E "/wp/v2/posts" (posts_params E page) s)
      as [[data r] s2 | e s2 |] eqn:Hfj.
    + pose proof (fetchJson_cases E "/wp/v2/posts" (posts_params E page) s f Ht) as Hc.
      rewrite Hfj in Hc. destruct Hc as (Hf & Hok & Hj & Hr2 & Ht2).
      unfold bind at 1. cbn [fst snd]. rewrite lift_cases.
      destruct (spread data) as [items | e] eqn:Hsp; [| discriminate].
      apply IH; [exact Ht2 |].
      pose proof (Hcarry _ _ _ _ _ _ Hf Hj Hsp) as Hne.
      rewrite length_app. destruct items; [congruence |]. cbn [List.length]. lia.
    + discriminate.
    + exfalso. exact (fetchJson_ends E _ _ _ Hfj).
Qed.

End Carrying.

(** X11. When every page that is answered carries at least one post, the
    pagination ends within [ceil(BLOG_LIMIT)] iterations, whatever the
    [X-WP-TotalPages] headers announce. *)
Theorem pagination_ends_when_pages_carry_posts E s f q fuel :
  transport_of E s = Some f ->
  BLOG_LIMIT E = Fin q ->
  (forall i url hs r data items,
      f i url hs = Responded r -> body_json r = Some data ->
      spread data = Ok items -> items <> []) ->
  (Qceiling q <= Z.of_nat fuel)%Z ->
  fetchAllPosts E fuel s <> OutOfFuel.
Proof.
  intros Ht Hlimit Hcarry Hfuel. unfold fetchAllPosts, bind.
  pose proof (loop_ends_when_pages_carry E f q Hlimit Hcarry fuel [] 1%Z (num_of_Z 1) s Ht)
    as Hloop.
  destruct (fetchAllPosts_loop E fuel [] 1 (num_of_Z 1) s); try discriminate.
  apply Hloop. cbn [List.length]. lia.
Qed.

Lemma pagination_ends_when_pages_carry_posts_witness :
  fetchAllPosts (Cases.host [] (Some Cases.one_per_page) None) 100 Sample.fresh
  <> OutOfFuel.
Proof.
  apply (pagination_ends_when_pages_carry_posts
           (Cases.host [] (Some Cases.one_per_page) None) Sample.fresh
           Cases.one_per_page (inject_Z 100)).
  - reflexivity.
  - reflexivity.
  - intros i url hs r data items Hf Hj Hsp.
    unfold Cases.one_per_page, Sample.json_page in Hf. injection Hf as <-.
    cbn in Hj. injection Hj as <-. cbn in Hsp. injection Hsp as <-. discriminate.
  - vm_compute. discriminate.
Defined.

(** ** The file system *)

Section Frame.

Variable E : Env.
























End Frame.

(** ** Whole runs *)

Section Runs.

Variable E : Env.






End Runs.


Section Degraded.

Variable E : Env.




Lemma res_map_fails (A B : Type) (f : A -> Res B) xs x e :
  In x xs -> f x = Err e -> exists e', res_map f xs = Err e'.
Proof.
  induction xs as [| y xs IH]; [intros [] |].
  intros [-> | Hin] He; cbn.
  - rewrite He. eauto.
  - destruct (f y); [| eauto]. cbn. destruct (IH Hin He) as (e' & ->). eauto.
Qed.





End Degraded.







Section Sources.

Variable E : Env.





End Sources.








(** ** The feed *)

Lemma string_of_rev_empty cur :
  string_of_list_ascii (rev cur) = EmptyString <-> cur = [].
Proof.
  split; [| intros ->; reflexivity].
  destruct cur as [| c cur]; [reflexivity |]. cbn.
  destruct (rev cur); discriminate.
Qed.

Lemma segments_none_aux s :
  forall cur,
    List.filter (fun seg => negb (is_empty seg)) (str_split_aux "/" 0 cur s) = []
    <-> cur = [] /\ Shape.all_chars (Ascii.eqb "/"%char) s = true.
Proof.
  induction s as [| c s IH]; intros cur.
  - cbn. destruct (string_of_list_ascii (rev cur)) eqn:Hc; cbn.
    + apply string_of_rev_empty in Hc. tauto.
    + split; [discriminate |]. intros [-> _]. discriminate.
  - rewrite split_aux_cons. unfold Shape.all_chars. cbn [list_ascii_of_string forallb].
    rewrite (Ascii.eqb_sym "/"%char c).
    destruct (Ascii.eqb c "/"%char).
    + cbn [List.filter andb].
      destruct (string_of_list_ascii (rev cur)) eqn:Hc; cbn [is_empty negb].
      * apply string_of_rev_empty in Hc. rewrite (IH []).
        unfold Shape.all_chars. tauto.
      * split; [discriminate |]. intros [-> _]. discriminate.
    + rewrite (IH (c :: cur)). cbn [andb]. split; [intros [? _] | intros [_ ?]]; discriminate.
Qed.

Lemma link_segments_none link :
  link_segments link = [] <-> Shape.all_chars (Ascii.eqb "/"%char) link = true.
Proof.
  unfold link_segments, str_split. rewrite segments_none_aux. tauto.
Qed.

Lemma last_segment_nonempty link :
  link_segments link <> [] ->
  default EmptyString (last (link_segments link)) <> EmptyString.
Proof.
  intros Hne.
  destruct (last (link_segments link)) as [x |] eqn:Hl.
  - cbn. apply last_Some in Hl as (front & Hl).
    assert (Hin : In x (link_segments link))
      by (rewrite Hl; apply in_or_app; right; now left).
    unfold link_segments in Hin. apply filter_In in Hin as (_ & Hx).
    destruct x; [discriminate | discriminate].
  - apply last_None in Hl. congruence.
Qed.

(** X19. A feed fragment with a [<link>] is kept exactly when the link
    text holds a character other than ['/']. *)
Theorem fallback_post_kept_iff_link_has_segment E item link post :
  match_element "link" item = Some link ->
  rss_post E item = Ok post ->
  has_slug_and_link post
  = Ok (negb (Shape.all_chars (Ascii.eqb "/"%char) link)).
Proof.
  intros Hlink Hpost.
  pose proof (rss_post_fields E item post Hpost) as (Hslug & _).
  rewrite Hlink in Hslug. cbn zeta in Hslug.
  destruct (rss_post_shape E item post Hpost) as (sl & lk & date & c & -> & _ & Hlk).
  rewrite Hlink in Hlk. subst lk.
  rewrite rss_object_filter. f_equal.
  unfold Spec.slug_and_link_recovered. rewrite Hslug.
  cbn [GetField lookup_prop find fst snd String.eqb Ascii.eqb Bool.eqb rss_object].
  destruct (Shape.all_chars (Ascii.eqb "/"%char) link) eqn:Hall; cbn [negb].
  - apply link_segments_none in Hall. rewrite Hall. reflexivity.
  - assert (Hne : link_segments link <> [])
      by (intros H; apply link_segments_none in H; congruence).
    rewrite (truthy_nonempty _ (last_segment_nonempty link Hne)).
    rewrite truthy_nonempty; [reflexivity |].
    intros ->. apply Hne. reflexivity.
Qed.

Lemma fallback_post_kept_iff_link_has_segment_witness :
  has_slug_and_link
    (rss_object EmptyString (VStr "//") "2026-11-02T09:30:00.000Z" "blog")
  = Ok false.
Proof.
  apply (fallback_post_kept_iff_link_has_segment
           (Sample.host Sample.feed_first) "<item><link>//</link></item>" "//");
    reflexivity.
Defined.

Lemma lower_string_cons c s :
  lower_string (String c s) = String (lower c) (lower_string s).
Proof. reflexivity. Qed.

Lemma prefix_ci_split p :
  forall s, prefix_ci p s = true ->
    exists found,
      s = found +:+ drop (String.length p) s
      /\ lower_string found = lower_string p.
Proof.
  induction p as [| a p IH]; intros s H.
  - exists EmptyString. split; reflexivity.
  - destruct s as [| b s]; [discriminate |]. cbn in H.
    apply andb_true_iff in H as [Hab Hrest]. apply Ascii.eqb_eq in Hab.
    destruct (IH s Hrest) as (found & Hs & Hl).
    exists (String b found). split.
    + cbn [String.length drop].
      change (String b found +:+ drop (String.length p) s)
        with (String b (found +:+ drop (String.length p) s)).
      now rewrite <- Hs.
    + rewrite !lower_string_cons. congruence.
Qed.

Lemma span_text_split s t r :
  span_text s = (t, r) -> s = t +:+ r /\ Spec.free_of "<"%char t = true.
Proof.
  revert t r. induction s as [| c s IH]; intros t r H; cbn in H.
  - injection H as <- <-. split; reflexivity.
  - destruct (Ascii.eqb c "<"%char) eqn:Hc.
    + injection H as <- <-. split; reflexivity.
    + destruct (span_text s) as [t' r'] eqn:Hs. injection H as <- <-.
      destruct (IH t' r' eq_refl) as (-> & Hfree). split; [reflexivity |].
      cbn. now rewrite Hc.
Qed.

Lemma match_element_unfold tag s :
  match_element tag s
  = match (if prefix_ci ("<" +:+ tag +:+ ">") s then
             let (t, r) := span_text (drop (String.length ("<" +:+ tag +:+ ">")) s) in
             if negb (is_empty t) && prefix_ci ("</" +:+ tag +:+ ">") r
             then Some t else None
           else None) with
    | Some t => Some t
    | None => match s with
              | EmptyString => None
              | String _ s' => match_element tag s'
              end
    end.
Proof. destruct s; reflexivity. Qed.

Lemma match_element_found tag s :
  forall t, match_element tag s = Some t ->
    t <> EmptyString /\ Spec.free_of "<"%char t = true
    /\ exists before opening closing after,
         s = before +:+ opening +:+ t +:+ closing +:+ after
         /\ lower_string opening = lower_string ("<" +:+ tag +:+ ">")
         /\ lower_string closing = lower_string ("</" +:+ tag +:+ ">").
Proof.
  induction s as [| c s IH]; intros t; rewrite match_element_unfold.
  all: destruct (prefix_ci ("<" +:+ tag +:+ ">") _) eqn:Hopen.
  all: try (destruct (span_text (drop (String.length ("<" +:+ tag +:+ ">")) _))
              as [t0 r] eqn:Hspan;
            destruct (negb (is_empty t0) && prefix_ci ("</" +:+ tag +:+ ">") r) eqn:Hclose).
  all: try discriminate.
  all: try (intros H; destruct (IH t H) as (Hne & Hfree & before & o & cl & after & -> & Ho & Hc);
            split; [exact Hne |]; split; [exact Hfree |];
            exists (String c before), o, cl, after; split; [reflexivity | auto]).
  all: intros [= <-];
    apply andb_true_iff in Hclose as [Hne Hcl];
    destruct (prefix_ci_split _ _ Hopen) as (o & Hs & Ho);
    destruct (span_text_split _ _ _ Hspan) as (Hd & Hfree);
    destruct (prefix_ci_split _ _ Hcl) as (cl & Hr & Hc);
    (split; [destruct t0; [discriminate | discriminate] |]);
    (split; [exact Hfree |]);
    exists EmptyString, o, cl, (drop (String.length ("</" +:+ tag +:+ ">")) r);
    (split; [| auto]);
    rewrite <- Hr, <- Hd; exact Hs.
Qed.

(** X20. What the feed patterns capture is never empty, holds no ['<'],
    and stands in the fragment between the opening and the closing tag,
    which match without regard to case. *)
Theorem feed_capture_is_element_text tag s t :
  match_element tag s = Some t ->
  t <> EmptyString /\ Spec.free_of "<"%char t = true
  /\ exists before opening closing after,
       s = before +:+ opening +:+ t +:+ closing +:+ after
       /\ lower_string opening = lower_string ("<" +:+ tag +:+ ">")
       /\ lower_string closing = lower_string ("</" +:+ tag +:+ ">").
Proof. apply match_element_found. Qed.

Lemma feed_capture_is_element_text_witness :
  match_element "link" "<item><LINK>https://example.com/a/</Link><link></link></item>"
  = Some "https://example.com/a/"
  /\ "https://example.com/a/" <> EmptyString.
Proof.
  split; [reflexivity |].
  apply (feed_capture_is_element_text
           "link" "<item><LINK>https://example.com/a/</Link><link></link></item>").
  reflexivity.
Defined.

Lemma prefix_empty s : String.prefix EmptyString s = true.
Proof. destruct s; reflexivity. Qed.

Lemma prefix_cons a p c s :
  String.prefix (String a p) (String c s)
  = if ascii_dec a c then String.prefix p s else false.
Proof. reflexivity. Qed.

Lemma prefix_append a b : String.prefix a (a +:+ b) = true.
Proof.
  induction a as [| c a IH]; [apply prefix_empty |].
  change (String c a +:+ b) with (String c (a +:+ b)). rewrite prefix_cons.
  destruct (ascii_dec c c); [exact IH | congruence].
Qed.

(** While [skip] characters of a separator occurrence remain to be dropped,
    the text starts with the last [skip] characters of ["<item>"], none of
    which starts another occurrence. *)
Lemma split_items_count s :
  forall skip cur,
    (skip <= 5)%nat ->
    String.prefix (drop (6 - skip) "<item>") s = true ->
    List.length (str_split_aux "<item>" skip cur s)
    = S (Spec.occurrences "<item>" s).
Proof.
  induction s as [| c s IH]; intros skip cur Hskip Hpre.
  - destruct skip as [| [| [| [| [| [| skip]]]]]]; try discriminate; try lia.
    reflexivity.
  - destruct skip as [| skip].
    + cbn [str_split_aux Spec.occurrences].
      destruct (String.prefix "<item>" (String c s)) eqn:Hp.
      * cbn [List.length]. rewrite IH; [lia | cbn; lia |].
        rewrite prefix_cons in Hp.
        destruct (ascii_dec "<" c); [exact Hp | discriminate].
      * rewrite IH; [lia | lia | apply prefix_empty].
    + cbn [str_split_aux Spec.occurrences].
      assert (Hc : String.prefix "<item>" (String c s) = false
                   /\ String.prefix (drop (6 - skip) "<item>") s = true).
      { destruct skip as [| [| [| [| [| skip]]]]]; try lia;
          match type of Hpre with
          | String.prefix ?d _ = true =>
              let d' := eval vm_compute in d in change d with d' in Hpre
          end;
          rewrite prefix_cons in Hpre;
          match type of Hpre with
          | (if ascii_dec ?a c then _ else _) = true =>
              destruct (ascii_dec a c) as [<- | _]; [| discriminate]
          end;
          (split; [reflexivity | exact Hpre]). }
      destruct Hc as (-> & Hrest). rewrite IH; [lia | lia | exact Hrest].
Qed.

Lemma rss_items_count xml :
  List.length (rss_items xml) = Spec.occurrences "<item>" xml.
Proof.
  unfold rss_items, str_split. rewrite length_map.
  pose proof (split_items_count xml 0 [] (Nat.le_0_l _) (prefix_empty _)) as H.
  destruct (str_split_aux "<item>" 0 [] xml); cbn in *; lia.
Qed.

Lemma res_map_err (A B : Type) (f : A -> Res B) xs e :
  res_map f xs = Err e -> exists x, In x xs /\ f x = Err e.
Proof.
  induction xs as [| x xs IH]; cbn; [discriminate |].
  destruct (f x) as [y | e'] eqn:Hx; cbn.
  - destruct (res_map f xs) as [ys | e'']; cbn; [discriminate |].
    intros [= <-]. destruct (IH eq_refl) as (z & Hz & Hfz). exists z. auto.
  - intros [= <-]. exists x. auto.
Qed.

Lemma rss_post_error E item e :
  rss_post E item = Err e -> e = RangeError "Invalid time value".
Proof.
  unfold rss_post. destruct (match_element "pubDate" item) as [d |]; [| discriminate].
  unfold toISOString. destruct (Date_toISOString E (VStr d)); cbn; [discriminate |].
  now intros [= <-].
Qed.

Lemma rss_post_unreadable E item d :
  match_element "pubDate" item = Some d ->
  Date_toISOString E (VStr d) = None ->
  rss_post E item = Err (RangeError "Invalid time value").
Proof.
  intros Hd Hnone. unfold rss_post, toISOString. rewrite Hd, Hnone. reflexivity.
Qed.

(** X21. The feed is cut into one fragment per occurrence of [<item>],
    each starting with that tag; a feed without [<item>] makes the fallback
    return no post after the warning "RSS contained no posts". *)
Theorem feed_fragments_follow_item_tags E s f r :
  transport_of E s = Some f ->
  f (requests s) (rssUrl E) (rss_headers E) = Responded r ->
  ok r = true ->
  List.length (rss_items (body_text r)) = Spec.occurrences "<item>" (body_text r)
  /\ (forall item, In item (rss_items (body_text r)) ->
                   String.prefix "<item>" item = true)
  /\ (Spec.occurrences "<item>" (body_text r) = 0%nat ->
      exists s', fetchPostsFromRss E s = Ret [] s'
                 /\ last (console s')
                    = Some (Warn, rss_warning (Error "RSS contained no posts"))).
Proof.
  intros Ht Hf Hok. split; [apply rss_items_count |]. split.
  - intros item Hin. unfold rss_items in Hin.
    apply in_map_iff in Hin as (chunk & <- & _). apply prefix_append.
  - intros Hzero.
    assert (Hnil : rss_items (body_text r) = []).
    { pose proof (rss_items_count (body_text r)) as Hc. rewrite Hzero in Hc.
      destruct (rss_items (body_text r)); [reflexivity | discriminate]. }
    destruct (rss_try_no_posts E s f r [] Ht Hf Hok) as (s1 & Htry);
      [rewrite Hnil; reflexivity | reflexivity |].
    pose proof (fetchPostsFromRss_cases E s) as Hc. rewrite Htry in Hc.
    eexists. split; [exact Hc |]. cbn. apply last_snoc.
Qed.

Lemma feed_fragments_follow_item_tags_witness :
  List.length (rss_items Sample.feed) = 3%nat
  /\ exists s',
       fetchPostsFromRss (Sample.host (Cases.feed_with "<rss><channel></channel></rss>"))
                         Sample.fresh = Ret [] s'.
Proof.
  split.
  - etransitivity;
      [exact (proj1 (feed_fragments_follow_item_tags
                       (Sample.host Sample.feed_first) Sample.fresh Sample.feed_first
                       (mkResponse 200 "OK" [] Sample.feed None)
                       eq_refl eq_refl eq_refl))
      | reflexivity].
  - destruct (proj2 (proj2 (feed_fragments_follow_item_tags
                              (Sample.host (Cases.feed_with "<rss><channel></channel></rss>"))
                              Sample.fresh
                              (Cases.feed_with "<rss><channel></channel></rss>")
                              (mkResponse 200 "OK" [] "<rss><channel></channel></rss>" None)
                              eq_refl eq_refl eq_refl)) eq_refl) as (s' & H & _).
    exists s'. exact H.
Defined.

(** X22. One fragment whose [<pubDate>] cannot be read as a date makes the
    fallback drop every post of the feed: it returns the empty list after
    the warning "Invalid time value". *)
Theorem unreadable_pubDate_empties_fallback E s f r item d :
  transport_of E s = Some f ->
  f (requests s) (rssUrl E) (rss_headers E) = Responded r ->
  ok r = true ->
  In item (rss_items (body_text r)) ->
  match_element "pubDate" item = Some d ->
  Date_toISOString E (VStr d) = None ->
  exists s',
    fetchPostsFromRss E s = Ret [] s'
    /\ last (console s')
       = Some (Warn, rss_warning (RangeError "Invalid time value")).
Proof.
  intros Ht Hf Hok Hin Hd Hnone.
  pose proof (rss_post_unreadable E item d Hd Hnone) as Hitem.
  destruct (res_map_fails _ _ (rss_post E) _ item _ Hin Hitem) as (e & He).
  destruct (res_map_err _ _ _ _ _ He) as (x & _ & Hx).
  apply rss_post_error in Hx. subst e.
  assert (Htry : exists s1, fetchPostsFromRss_try E s
                            = Throw (RangeError "Invalid time value") s1).
  { unfold fetchPostsFromRss_try, bind.
    through_transport E s Ht s1 Hs1 Hreq.
    rewrite Hf, Hok. cbn [negb]. rewrite lift_cases, He. eauto. }
  destruct Htry as (s1 & Htry).
  pose proof (fetchPostsFromRss_cases E s) as Hc. rewrite Htry in Hc.
  eexists. split; [exact Hc |]. cbn. apply last_snoc.
Qed.

Lemma unreadable_pubDate_empties_fallback_witness :
  exists s',
    fetchPostsFromRss (Sample.host (Cases.feed_with Cases.bad_date_feed)) Sample.fresh
    = Ret [] s'
    /\ last (console s')
       = Some (Warn, rss_warning (RangeError "Invalid time value")).
Proof.
  apply (unreadable_pubDate_empties_fallback
           (Sample.host (Cases.feed_with Cases.bad_date_feed)) Sample.fresh
           (Cases.feed_with Cases.bad_date_feed)
           (mkResponse 200 "OK" [] Cases.bad_date_feed None)
           "<item><link>https://example.com/news/other/</link><pubDate>yesterday</pubDate></item></channel></rss>"
           "yesterday");
    try reflexivity.
  vm_compute. right. left. reflexivity.
Defined.

(** ** The markup *)

Lemma append_cons c a b : String c a +:+ b = String c (a +:+ b).
Proof. reflexivity. Qed.


Lemma string_of_list_chars s : string_of_list_ascii (list_ascii_of_string s) = s.
Proof. apply string_of_list_ascii_of_string. Qed.

Lemma string_of_app (a b : list ascii) :
  string_of_list_ascii (a ++ b) = string_of_list_ascii a +:+ string_of_list_ascii b.
Proof. induction a as [| c a IH]; [reflexivity |]. cbn. now rewrite IH. Qed.

Lemma append_empty_r s : s +:+ EmptyString = s.
Proof. induction s as [| c s IH]; [reflexivity |]. rewrite append_cons. now rewrite IH. Qed.

















(** The texts are copied unescaped. *)
Example markup_in_a_slug_breaks_the_sitemap :
  Spec.well_formed_xml
    (sitemap_of [url_block "https://example.com/blog/a<b" "2026-11-02" "monthly" "0.6"])
  = false.
Proof. vm_compute. reflexivity. Qed.

Lemma split_hd_aux d s :
  forall cur,
    exists day rest,
      hd EmptyString (str_split_aux (String d EmptyString) 0 cur s)
      = string_of_list_ascii (rev cur) +:+ day
      /\ Spec.free_of d day = true
      /\ (s = day \/ s = day +:+ String d rest).
Proof.
  induction s as [| c s IH]; intros cur.
  - exists EmptyString, EmptyString. cbn. rewrite append_empty_r. auto.
  - rewrite split_aux_cons. destruct (Ascii.eqb c d) eqn:Hc.
    + apply Ascii.eqb_eq in Hc. subst c.
      exists EmptyString, s. cbn [hd]. rewrite append_empty_r. auto.
    + destruct (IH (c :: cur)) as (day & rest & Hhd & Hfree & Hs).
      exists (String c day), rest. split; [| split].
      * rewrite Hhd. cbn [rev]. rewrite string_of_app. cbn [string_of_list_ascii].
        rewrite append_assoc. reflexivity.
      * cbn. now rewrite Hc.
      * destruct Hs as [-> | ->]; [left | right]; reflexivity.
Qed.

(** X24. The [lastmod] of an entry is the text of the instant in front of
    its first ['T'], the whole text when there is none; it never holds a
    ['T']. *)
Theorem date_part_is_text_before_T iso :
  exists day rest,
    date_part iso = day
    /\ Spec.free_of "T"%char day = true
    /\ (iso = day \/ iso = day +:+ "T" +:+ rest).
Proof.
  destruct (split_hd_aux "T"%char iso []) as (day & rest & Hhd & Hfree & Hs).
  exists day, rest. auto.
Qed.
